(** * mcpdoc: documentation sources, the domain allowlist and fetch dispatch

    A shallow embedding of [src/mcpdoc/main.py]: [extract_domain],
    [create_server] and the two tools it registers, [list_doc_sources] and
    [fetch_docs].

    The program talks to a file system, an HTTP client, an HTML converter and
    a tool-hosting framework.  None of them is part of the repository, so
    they enter the model as oracles: the changing outside world ([World]:
    files and network) and the fixed libraries ([Collab]: [markdownify],
    [urlparse], the [FastMCP] constructor, the iteration order of a Python
    [set]).  Every call that may fail returns an [outcome]; every call that
    touches the outside world is logged in a trace of [event]s, so that
    "never issues an HTTP request" is a statement about the trace.

    Strings are [string] (sequences of bytes, UTF-8 for non-ASCII text); the
    prefix test and the seven-byte slice of the source agree on bytes and on
    code points, because the prefix [file://] is ASCII. *)

From Stdlib Require Import String Ascii List Bool QArith_base.
From stdpp Require Import gmap strings list.

Local Open Scope string_scope.

(** ** Python string primitives used by the source *)

Module Py.

(** The line feed the source writes as [\n]. *)
Definition LF : string := String (ascii_of_nat 10) EmptyString.

(** [s.startswith(p)] *)
Definition startswith (s p : string) : bool := String.prefix p s.

(** [s[n:]]: a slice past the end is the empty string. *)
Fixpoint slice_from (n : nat) (s : string) : string :=
  match n, s with
  | O, _ => s
  | S _, EmptyString => EmptyString
  | S k, String _ rest => slice_from k rest
  end.

(** [s.replace(old, new)] for a non-empty [old]: occurrences are replaced
    left to right and do not overlap.  [skip] counts the characters of the
    occurrence just matched that are still to be passed over. *)
Fixpoint replace_from (old new : string) (skip : nat) (s : string) : string :=
  match s with
  | EmptyString => EmptyString
  | String ch rest =>
      match skip with
      | S k => replace_from old new k rest
      | O =>
          if String.prefix old s
          then new +:+ replace_from old new (String.length old - 1) rest
          else String ch (replace_from old new 0 rest)
      end
  end.

Definition replace (s old new : string) : string := replace_from old new 0 s.

(** [old in s[i:]] for some [i]: [old] occurs somewhere in [s]. *)
Fixpoint occurs (old s : string) : bool :=
  String.prefix old s ||
  match s with
  | EmptyString => false
  | String _ rest => occurs old rest
  end.

Definition is_slash (ch : ascii) : bool := Ascii.eqb ch "/"%char.

Fixpoint has_slash (s : string) : bool :=
  match s with
  | EmptyString => false
  | String ch rest => is_slash ch || has_slash rest
  end.

(** [os.path.basename(p)] of [posixpath]: what follows the last slash,
    [p[p.rfind('/') + 1:]]. *)
Fixpoint basename (p : string) : string :=
  match p with
  | EmptyString => EmptyString
  | String ch rest =>
      if has_slash rest then basename rest
      else if is_slash ch then rest
      else p
  end.

(** [sep.join(items)] *)
Definition join (sep : string) (items : list string) : string :=
  String.concat sep items.

(** [a or b] on strings: the empty string is false. *)
Definition or_else (a b : string) : string :=
  match a with
  | EmptyString => b
  | _ => a
  end.

End Py.

(** ** Exceptions and outcomes *)

(** The exception classes the source distinguishes.  [RequestError] stands
    for httpx's class and its subclasses (transport errors, timeouts);
    [OtherException] is any other subclass of [Exception], named by its
    qualified class name ([OSError], [UnicodeDecodeError],
    [httpx.InvalidURL], ...).  Interpreter-level [BaseException]s
    (keyboard interrupt, system exit) are outside the model. *)
Inductive exn_class : Type :=
  | HTTPStatusError
  | RequestError
  | TypeError
  | OtherException (qualname : string).

(** An exception object: its class and [str(e)]. *)
Record exn : Type := Exn { exn_cls : exn_class; exn_str : string }.

Inductive outcome (A : Type) : Type :=
  | Ret (a : A)
  | Raise (e : exn).
Arguments Ret {A} a.
Arguments Raise {A} e.

Definition returns {A} (o : outcome A) : bool :=
  match o with Ret _ => true | Raise _ => false end.

(** ** Effects: a trace of the calls into the outside world *)

Inductive event : Type :=
  | EvExists (path : string)   (* os.path.exists(path) *)
  | EvOpen (path : string)     (* open(path, 'r', encoding='utf-8') and read() *)
  | EvHttpGet (url : string).  (* httpx_client.get(url, ...) *)

(** A computation: the events it performed, in order, and how it ended. *)
Definition io (A : Type) : Type := (list event * outcome A)%type.

Definition ret {A} (a : A) : io A := ([], Ret a).
Definition raise {A} (e : exn) : io A := ([], Raise e).
Definition lift {A} (o : outcome A) : io A := ([], o).
Definition perform {A} (ev : event) (o : outcome A) : io A := ([ev], o).

Definition bind {A B} (m : io A) (k : A -> io B) : io B :=
  match m with
  | (t, Ret a) => let '(t', r) := k a in ((t ++ t')%list, r)
  | (t, Raise e) => (t, Raise e)
  end.

(** [try: body except <classes> as e: handler(e)], where [catches] decides
    whether the raised object is an instance of the listed classes. *)
Definition try_except {A} (body : io A) (catches : exn -> bool)
    (handler : exn -> io A) : io A :=
  match body with
  | (t, Ret a) => (t, Ret a)
  | (t, Raise e) =>
      if catches e then let '(t', r) := handler e in ((t ++ t')%list, r)
      else (t, Raise e)
  end.

Notation "'do' x <- m ; k" := (bind m (fun x => k))
  (at level 10, x name, m at level 100, k at level 200).

(** [a or b] where evaluating [b] has effects or may raise: [b] is
    evaluated only when the string [a] is empty. *)
Definition or_else_do (a : string) (b : io string) : io string :=
  match a with
  | EmptyString => b
  | _ => ret a
  end.

Definition trace {A} (m : io A) : list event := fst m.
Definition result {A} (m : io A) : outcome A := snd m.

(** [except Exception]: every modelled exception is an [Exception]. *)
Definition is_Exception (e : exn) : bool := true.

(** [except (httpx.HTTPStatusError, httpx.RequestError)] *)
Definition is_httpx_error (e : exn) : bool :=
  match exn_cls e with
  | HTTPStatusError | RequestError => true
  | _ => false
  end.

(** ** Data model *)

(** [class DocSource(TypedDict)]: [llms_txt] is required, the other two keys
    may be missing. *)
Record DocSource : Type := {
  name : option string;
  llms_txt : string;
  description : option string;
}.

(** [entry.get("name", "")] *)
Definition get_name (entry : DocSource) : string := default "" (name entry).

(** What the source reads of [urlparse(url)]. *)
Record ParseResult : Type := { scheme : string; netloc : string }.

(** What the source reads of an httpx response: whether the status is a
    success, the message [raise_for_status()] raises with when it is not,
    and the decoded body. *)
Record Response : Type := {
  is_success : bool;
  status_error : string;
  text : string;
}.

(** [response.raise_for_status()] *)
Definition raise_for_status (r : Response) : outcome unit :=
  if is_success r then Ret tt else Raise (Exn HTTPStatusError (status_error r)).

(** [httpx.AsyncClient(follow_redirects=..., timeout=...)] *)
Record AsyncClient : Type := {
  follow_redirects : bool;
  client_timeout : Q;
}.

(** Values of the [settings] dictionary. *)
Inductive pyval : Type :=
  | PyBool (b : bool)
  | PyInt (z : Z)
  | PyStr (s : string).

(** The outside world at the time of a call: files and network. *)
Record World : Type := {
  os_path_exists : string -> bool;
  open_read : string -> outcome string;
  httpx_get : AsyncClient -> Q -> string -> outcome Response;
}.

(** The libraries the program is linked with.  [set_iter] is the order in
    which Python iterates over a set of strings: some enumeration of its
    members, each once.  [urlparse] raises [ValueError] on some locators
    (an unbalanced bracket in the network location, for one). *)
Record Collab : Type := {
  markdownify : string -> outcome string;
  urlparse : string -> outcome ParseResult;
  FastMCP : gmap string pyval -> outcome unit;
  set_iter : gset string -> list string;
  set_iter_perm : forall s, set_iter s ≡ₚ elements s;
}.

(** What [create_server] leaves in the closures of the two tools. *)
Record Server : Type := {
  server_sources : list DocSource;
  server_client : AsyncClient;
  server_timeout : Q;
  server_domains : gset string;
}.

(** ** The program *)

Section Program.

Variable c : Collab.

(** [extract_domain(url)], lines 25-35: what [urlparse] raises leaves the
    function. *)
Definition extract_domain (url : string) : outcome string :=
  match urlparse c url with
  | Ret parsed => Ret (scheme parsed +:+ "://" +:+ netloc parsed +:+ "/")
  | Raise e => Raise e
  end.

(** [url.startswith("file://") or os.path.exists(url)], lines 87 and 105:
    [or] does not probe the file system when the prefix is there. *)
Definition is_local (w : World) (url_or_path : string) : io bool :=
  if Py.startswith url_or_path "file://" then ret true
  else perform (EvExists url_or_path) (Ret (os_path_exists w url_or_path)).

(** The body of the loop of [list_doc_sources], lines 85-96: [content]
    after one more entry. *)
Definition list_entry (w : World) (entry : DocSource) (content : string)
    : io string :=
  let url_or_path := llms_txt entry in
  do local <- is_local w url_or_path;
  if (local : bool) then
    let name :=
      Py.or_else (get_name entry)
                 (Py.basename (Py.replace url_or_path "file://" "")) in
    let content := content +:+ (name +:+ Py.LF) in
    let content := content +:+ (("Path: " +:+ url_or_path) +:+ Py.LF +:+ Py.LF) in
    ret content
  else
    do name <- or_else_do (get_name entry) (lift (extract_domain url_or_path));
    let content := content +:+ (name +:+ Py.LF) in
    let content := content +:+ (("URL: " +:+ url_or_path) +:+ Py.LF +:+ Py.LF) in
    ret content.

(** The loop of [list_doc_sources], lines 84-96. *)
Fixpoint list_doc_sources_loop (w : World) (entries : list DocSource)
    (content : string) : io string :=
  match entries with
  | [] => ret content
  | entry :: rest =>
      do content <- list_entry w entry content;
      list_doc_sources_loop w rest content
  end.

(** [list_doc_sources()], lines 74-97. *)
Definition list_doc_sources (w : World) (srv : Server) : io string :=
  let content := "" in
  list_doc_sources_loop w (server_sources srv) content.

(** The loop of [create_server] over the sources, lines 103-109. *)
Fixpoint scan_sources (w : World) (entries : list DocSource)
    (domains : gset string) (has_local_files : bool)
    : io (gset string * bool) :=
  match entries with
  | [] => ret (domains, has_local_files)
  | entry :: rest =>
      let url := llms_txt entry in
      do local <- is_local w url;
      if (local : bool) then scan_sources w rest domains true
      else
        do origin <- lift (extract_domain url);
        scan_sources w rest (domains ∪ {[origin]}) has_local_files
  end.

(** Lines 111-119: the extra domains, or the default for local files.
    [if allowed_domains:] is false for [None] and for the empty list. *)
Definition widen_domains (domains : gset string) (has_local_files : bool)
    (allowed_domains : option (list string)) : gset string :=
  match allowed_domains with
  | Some ((_ :: _) as extra) =>
      if bool_decide ("*" ∈ extra) then {["*"]}
      else domains ∪ list_to_set extra
  | _ =>
      if has_local_files && bool_decide (domains = ∅) then {["*"]}
      else domains
  end.

(** The message of the [TypeError] that [**None] raises. *)
Definition not_a_mapping : string :=
  "mcp.server.fastmcp.server.FastMCP() argument after ** must be a mapping, not NoneType".

(** [create_server(doc_source, follow_redirects=, timeout=, settings=,
    allowed_domains=)], lines 38-175.  The first thing it does is unpack
    [settings] into the constructor of [FastMCP]. *)
Definition create_server (w : World) (doc_source : list DocSource)
    (follow_redirects : bool) (timeout : Q)
    (settings : option (gmap string pyval))
    (allowed_domains : option (list string)) : io Server :=
  do _ <- match settings with
          | None => raise (Exn TypeError not_a_mapping)
          | Some kwargs => lift (FastMCP c kwargs)
          end;
  let httpx_client :=
    {| follow_redirects := follow_redirects; client_timeout := timeout |} in
  do scanned <- scan_sources w doc_source ∅ false;
  let domains := widen_domains (fst scanned) (snd scanned) allowed_domains in
  ret {| server_sources := doc_source;
         server_client := httpx_client;
         server_timeout := timeout;
         server_domains := domains |}.

(** Lines 145-150 and again lines 154-159: read the file and convert it;
    any exception becomes the result string. *)
Definition read_local (w : World) (file_path : string) : io string :=
  try_except
    (do content <- perform (EvOpen file_path) (open_read w file_path);
     lift (markdownify c content))
    is_Exception
    (fun e => ret ("Error reading local file: " +:+ exn_str e)).

(** The test of line 162:
    ["*" not in domains and not any(url.startswith(d) for d in domains)]. *)
Definition not_allowed (domains : gset string) (url : string) : bool :=
  negb (bool_decide ("*" ∈ domains))
  && negb (existsb (fun domain => Py.startswith url domain)
                   (set_iter c domains)).

(** The string of lines 163-166. *)
Definition not_allowed_message (domains : gset string) : string :=
  "Error: URL not allowed. Must start with one of the following domains: "
  +:+ Py.join ", " (set_iter c domains).

(** Lines 168-173: the GET, the status check and the conversion; only the
    two httpx classes are handled. *)
Definition http_fetch (w : World) (srv : Server) (url : string) : io string :=
  try_except
    (do response <- perform (EvHttpGet url)
                      (httpx_get w (server_client srv) (server_timeout srv) url);
     do _ <- lift (raise_for_status response);
     lift (markdownify c (text response)))
    is_httpx_error
    (fun e => ret ("Encountered an HTTP error: " +:+ exn_str e)).

(** [fetch_docs(url)], lines 122-173. *)
Definition fetch_docs (w : World) (srv : Server) (url : string) : io string :=
  let domains := server_domains srv in
  if Py.startswith url "file://" then
    let file_path := Py.slice_from 7 url in
    read_local w file_path
  else
    do found <- perform (EvExists url) (Ret (os_path_exists w url));
    if (found : bool) then read_local w url
    else if not_allowed domains url then ret (not_allowed_message domains)
    else http_fetch w srv url.

End Program.

(** ** Concrete collaborators and worlds, to run the program on *)

Module Sample.

(** The part of [s] before the first character satisfying [stop], and the
    rest, which starts with that character. *)
Fixpoint break_at (stop : ascii -> bool) (s : string) : string * string :=
  match s with
  | EmptyString => (EmptyString, EmptyString)
  | String ch rest =>
      if stop ch then (EmptyString, s)
      else let '(before, after) := break_at stop rest in
           (String ch before, after)
  end.

Definition is_colon (ch : ascii) : bool := Ascii.eqb ch ":"%char.

Definition ends_netloc (ch : ascii) : bool :=
  Ascii.eqb ch "/"%char || Ascii.eqb ch "?"%char || Ascii.eqb ch "#"%char.

Fixpoint has_char (wanted : ascii) (s : string) : bool :=
  match s with
  | EmptyString => false
  | String ch rest => Ascii.eqb ch wanted || has_char wanted rest
  end.

(** A URL splitter for plain absolute URLs [scheme://host/path]: the
    scheme is what precedes the first colon, the network location what
    lies between the double slash and the next [/], [?] or [#].  As in
    urllib, a network location with one square bracket and not the other
    is refused. *)
Definition urlsplit (url : string) : outcome ParseResult :=
  let '(before, after) := break_at is_colon url in
  match after with
  | String _ (String "/" (String "/" rest)) =>
      let host := fst (break_at ends_netloc rest) in
      if xorb (has_char "["%char host) (has_char "]"%char host)
      then Raise (Exn (OtherException "ValueError") "Invalid IPv6 URL")
      else Ret {| scheme := before; netloc := host |}
  | String _ _ => Ret {| scheme := before; netloc := "" |}
  | EmptyString => Ret {| scheme := ""; netloc := "" |}
  end.

(** A converter that returns plain text as it is. *)
Definition plain_text (s : string) : outcome string := Ret s.

(** A converter that gives up on every input. *)
Definition failing_converter (s : string) : outcome string :=
  Raise (Exn (OtherException "RecursionError")
             "maximum recursion depth exceeded").

Definition collab_with (converter : string -> outcome string) : Collab :=
  {| markdownify := converter;
     urlparse := urlsplit;
     FastMCP := fun _ => Ret tt;
     set_iter := elements;
     set_iter_perm := fun s => reflexivity (elements s) |}.

Definition collab : Collab := collab_with plain_text.

(** A file system holding the listed files and nothing else. *)
Fixpoint lookup_file (files : list (string * string)) (path : string)
    : option string :=
  match files with
  | [] => None
  | (p, content) :: rest =>
      if String.eqb p path then Some content else lookup_file rest path
  end.

Definition no_such_file (path : string) : exn :=
  Exn (OtherException "FileNotFoundError")
      ("[Errno 2] No such file or directory: '" +:+ path +:+ "'").

(** A network on which every request fails to connect. *)
Definition unreachable (cl : AsyncClient) (timeout : Q) (url : string)
    : outcome Response :=
  Raise (Exn RequestError "All connection attempts failed").

(** A network on which every request is answered with the URL as body. *)
Definition echo (cl : AsyncClient) (timeout : Q) (url : string)
    : outcome Response :=
  Ret {| is_success := true; status_error := ""; text := url |}.

(** A network on which every request is answered with status 404. *)
Definition not_found (cl : AsyncClient) (timeout : Q) (url : string)
    : outcome Response :=
  Ret {| is_success := false;
         status_error := "Client error '404 Not Found' for url '" +:+ url +:+ "'";
         text := "<h1>Not Found</h1>" |}.

(** An HTTP client that refuses a URL it cannot parse, as httpx does with
    [InvalidURL], which is not a [RequestError]. *)
Definition strict (cl : AsyncClient) (timeout : Q) (url : string)
    : outcome Response :=
  Raise (Exn (OtherException "httpx.InvalidURL") "Invalid port: 'abc'").

Definition world (files : list (string * string))
    (net : AsyncClient -> Q -> string -> outcome Response) : World :=
  {| os_path_exists := fun path => bool_decide (is_Some (lookup_file files path));
     open_read := fun path =>
       match lookup_file files path with
       | Some content => Ret content
       | None => Raise (no_such_file path)
       end;
     httpx_get := net |}.

Definition client : AsyncClient :=
  {| follow_redirects := false; client_timeout := 10 |}.

Definition server (sources : list DocSource) (domains : gset string) : Server :=
  {| server_sources := sources;
     server_client := client;
     server_timeout := 10;
     server_domains := domains |}.

Definition source (n : option string) (locator : string) : DocSource :=
  {| name := n; llms_txt := locator; description := None |}.

End Sample.

(** ** Definitions used to state the properties *)

(** The string [read_local] returns: the converted content, or the reason
    of the failure after a fixed prefix. *)
Definition local_result (c : Collab) (w : World) (file_path : string) : string :=
  match open_read w file_path with
  | Ret content =>
      match markdownify c content with
      | Ret converted => converted
      | Raise e => "Error reading local file: " +:+ exn_str e
      end
  | Raise e => "Error reading local file: " +:+ exn_str e
  end.

(** Whether a locator is local, as both tools and [create_server] decide
    it: the prefix, or else the probe. *)
Definition is_local_locator (w : World) (locator : string) : bool :=
  Py.startswith locator "file://" || os_path_exists w locator.

(** The probes [is_local] makes for a list of sources. *)
Definition probes (w : World) (sources : list DocSource) : list event :=
  map (fun entry => EvExists (llms_txt entry))
      (List.filter (fun entry => negb (Py.startswith (llms_txt entry) "file://"))
                   sources).

(** The probes made by a loop over the sources that stops at the first
    entry satisfying [stops], after probing it. *)
Fixpoint probes_until (stops : DocSource -> bool) (sources : list DocSource)
    : list event :=
  match sources with
  | [] => []
  | entry :: rest =>
      ((if Py.startswith (llms_txt entry) "file://" then []
        else [EvExists (llms_txt entry)])
       ++ (if stops entry then [] else probes_until stops rest))%list
  end.

(** The origin of a locator, [scheme://netloc/], when [urlparse] accepts
    the locator. *)
Definition origin_of (c : Collab) (locator : string) : option string :=
  match urlparse c locator with
  | Ret parsed => Some (scheme parsed +:+ "://" +:+ netloc parsed +:+ "/")
  | Raise _ => None
  end.

(** Whether [urlparse] accepts the locator of a source, if it is remote. *)
Definition source_parses (c : Collab) (w : World) (entry : DocSource) : bool :=
  is_local_locator w (llms_txt entry) || returns (urlparse c (llms_txt entry)).

Definition remote_sources_parse (c : Collab) (w : World)
    (sources : list DocSource) : bool :=
  forallb (source_parses c w) sources.

(** The allowed set in the words of the specification: the origins of the
    remote sources and the extra domains; ["*"] among the extra domains
    makes it the sentinel; so does a local source when there is neither a
    remote origin nor an extra domain. *)
Definition remote_origins (c : Collab) (w : World) (sources : list DocSource)
    : gset string :=
  list_to_set
    (omap (fun entry => origin_of c (llms_txt entry))
          (List.filter (fun entry => negb (is_local_locator w (llms_txt entry)))
                       sources)).

Definition has_local_source (w : World) (sources : list DocSource) : bool :=
  existsb (fun entry => is_local_locator w (llms_txt entry)) sources.

Definition allowed_domain_set (c : Collab) (w : World)
    (sources : list DocSource) (extra_domains : option (list string))
    : gset string :=
  let extra := default [] extra_domains in
  if bool_decide ("*" ∈ extra) then {["*"]}
  else if has_local_source w sources
          && bool_decide (remote_origins c w sources = ∅)
          && bool_decide (extra = [])
       then {["*"]}
       else remote_origins c w sources ∪ list_to_set extra.

(** The path a local locator names: what follows the prefix, or the locator
    itself. *)
Definition local_path (locator : string) : string :=
  if Py.startswith locator "file://" then Py.slice_from 7 locator else locator.

(** The name [list_doc_sources] prints for an entry, or the exception that
    computing it raises. *)
Definition display_name (c : Collab) (w : World) (entry : DocSource)
    : outcome string :=
  match get_name entry with
  | EmptyString =>
      if is_local_locator w (llms_txt entry)
      then Ret (Py.basename (Py.replace (llms_txt entry) "file://" ""))
      else match urlparse c (llms_txt entry) with
           | Ret parsed =>
               Ret (scheme parsed +:+ "://" +:+ netloc parsed +:+ "/")
           | Raise e => Raise e
           end
  | configured => Ret configured
  end.

(** Whether the name of an entry can be computed. *)
Definition name_resolves (c : Collab) (w : World) (entry : DocSource) : bool :=
  returns (display_name c w entry).

(** The label of the second line of an entry. *)
Definition locator_label (w : World) (entry : DocSource) : string :=
  if is_local_locator w (llms_txt entry) then "Path: " else "URL: ".

(** The text of one entry under a given name: the name line, the locator
    line, an empty line. *)
Definition block_with (shown : string) (w : World) (entry : DocSource)
    : string :=
  shown +:+ Py.LF +:+ locator_label w entry +:+ llms_txt entry
  +:+ Py.LF +:+ Py.LF.

(** The blocks of the sources one after the other, for a given way of
    naming an entry; the first name that cannot be computed ends it. *)
Fixpoint listing_with (naming : DocSource -> outcome string) (w : World)
    (sources : list DocSource) : outcome string :=
  match sources with
  | [] => Ret ""
  | entry :: rest =>
      match naming entry with
      | Ret shown =>
          match listing_with naming w rest with
          | Ret blocks => Ret (block_with shown w entry +:+ blocks)
          | Raise e => Raise e
          end
      | Raise e => Raise e
      end
  end.

Definition listing (c : Collab) (w : World) (sources : list DocSource)
    : outcome string :=
  listing_with (display_name c w) w sources.

(** The name in the words of the specification: the configured name if
    present, else the base name of the file for a local locator, else the
    origin. *)
Definition stated_display_name (c : Collab) (w : World) (entry : DocSource)
    : outcome string :=
  match name entry with
  | Some configured => Ret configured
  | None =>
      if is_local_locator w (llms_txt entry)
      then Ret (Py.basename (local_path (llms_txt entry)))
      else match urlparse c (llms_txt entry) with
           | Ret parsed =>
               Ret (scheme parsed +:+ "://" +:+ netloc parsed +:+ "/")
           | Raise e => Raise e
           end
  end.

Definition stated_listing (c : Collab) (w : World) (sources : list DocSource)
    : outcome string :=
  listing_with (stated_display_name c w) w sources.

(** [s.endswith("/")] *)
Fixpoint ends_with_slash (s : string) : bool :=
  match s with
  | EmptyString => false
  | String ch EmptyString => Py.is_slash ch
  | String _ rest => ends_with_slash rest
  end.

(** The server [create_server] returns, when it returns one. *)
Definition created (c : Collab) (w : World) (doc_source : list DocSource)
    (redirects : bool) (timeout : Q) (extra_domains : option (list string))
    : Server :=
  {| server_sources := doc_source;
     server_client := {| follow_redirects := redirects;
                         client_timeout := timeout |};
     server_timeout := timeout;
     server_domains := allowed_domain_set c w doc_source extra_domains |}.

(** * Verification *)

(** ** Facts about the string primitives *)

Lemma append_nil (s : string) : "" +:+ s = s.
Proof. reflexivity. Qed.

Lemma append_cons (ch : ascii) (s t : string) :
  String ch s +:+ t = String ch (s +:+ t).
Proof. reflexivity. Qed.

Lemma append_nil_r (s : string) : s +:+ "" = s.
Proof.
  induction s as [|ch s IH]; [reflexivity|].
  now rewrite append_cons, IH.
Qed.

Lemma append_assoc (s t u : string) : (s +:+ t) +:+ u = s +:+ (t +:+ u).
Proof.
  induction s as [|ch s IH]; [reflexivity|].
  now rewrite !append_cons, IH.
Qed.

Lemma prefix_nil (s : string) : String.prefix "" s = true.
Proof. now destruct s. Qed.

Lemma prefix_cons (a b : ascii) (p s : string) :
  String.prefix (String a p) (String b s)
  = if Ascii.ascii_dec a b then String.prefix p s else false.
Proof. reflexivity. Qed.

Lemma startswith_app (p r : string) : Py.startswith (p +:+ r) p = true.
Proof.
  unfold Py.startswith. induction p as [|ch p IH].
  - apply prefix_nil.
  - rewrite append_cons, prefix_cons.
    destruct (Ascii.ascii_dec ch ch) as [_|ne]; [exact IH | now destruct ne].
Qed.

Lemma startswith_inv (s p : string) :
  Py.startswith s p = true -> s = p +:+ Py.slice_from (String.length p) s.
Proof.
  unfold Py.startswith. revert s. induction p as [|ch p IH]; intros s H.
  - reflexivity.
  - destruct s as [|a s]; [discriminate H|].
    rewrite prefix_cons in H.
    destruct (Ascii.ascii_dec ch a) as [->|]; [|discriminate H].
    rewrite append_cons. simpl. f_equal. now apply IH.
Qed.

(** After the seven characters of [file://] comes the path. *)
Lemma slice_file_prefix (url : string) :
  Py.startswith url "file://" = true ->
  url = "file://" +:+ Py.slice_from 7 url.
Proof. apply (startswith_inv url "file://"). Qed.

(** ** Facts about the monad *)

Lemma bind_perform {A B} (ev : event) (a : A) (k : A -> io B) :
  bind (perform ev (Ret a)) k = (ev :: trace (k a), result (k a)).
Proof. unfold bind, perform, trace, result. now destruct (k a). Qed.

(** ** The two retrieval steps *)

Lemma read_local_spec (c : Collab) (w : World) (file_path : string) :
  read_local c w file_path = ([EvOpen file_path], Ret (local_result c w file_path)).
Proof.
  unfold read_local, local_result, try_except, bind, perform, lift.
  destruct (open_read w file_path) as [content|e]; simpl.
  - now destruct (markdownify c content).
  - reflexivity.
Qed.

Lemma http_fetch_trace (c : Collab) (w : World) (srv : Server) (url : string) :
  trace (http_fetch c w srv url) = [EvHttpGet url].
Proof.
  unfold http_fetch, try_except, bind, perform, lift, trace.
  destruct (httpx_get w _ _ url) as [response|e]; simpl.
  - destruct (raise_for_status response) as [[]|e]; simpl.
    + destruct (markdownify c (text response)) as [s|e]; simpl; [reflexivity|].
      now destruct (is_httpx_error e).
    + now destruct (is_httpx_error e).
  - now destruct (is_httpx_error e).
Qed.

(** How [fetch_docs] dispatches, branch by branch. *)
Lemma fetch_docs_file (c : Collab) (w : World) (srv : Server) (url : string) :
  Py.startswith url "file://" = true ->
  fetch_docs c w srv url = read_local c w (Py.slice_from 7 url).
Proof. unfold fetch_docs. now intros ->. Qed.

Lemma fetch_docs_path (c : Collab) (w : World) (srv : Server) (url : string) :
  Py.startswith url "file://" = false ->
  os_path_exists w url = true ->
  fetch_docs c w srv url = ([EvExists url; EvOpen url], Ret (local_result c w url)).
Proof.
  unfold fetch_docs. intros -> E.
  rewrite bind_perform, E, read_local_spec. reflexivity.
Qed.

Lemma fetch_docs_remote (c : Collab) (w : World) (srv : Server) (url : string) :
  Py.startswith url "file://" = false ->
  os_path_exists w url = false ->
  fetch_docs c w srv url =
    if not_allowed c (server_domains srv) url
    then ([EvExists url], Ret (not_allowed_message c (server_domains srv)))
    else (EvExists url :: trace (http_fetch c w srv url),
          result (http_fetch c w srv url)).
Proof.
  unfold fetch_docs. intros -> E.
  rewrite bind_perform, E. now destruct (not_allowed c (server_domains srv) url).
Qed.

(** ** The allowlist test *)

Lemma set_iter_elem (c : Collab) (domains : gset string) (d : string) :
  d ∈ set_iter c domains <-> d ∈ domains.
Proof. now rewrite (set_iter_perm c domains), elem_of_elements. Qed.

Lemma set_iter_singleton (c : Collab) (d : string) : set_iter c {[d]} = [d].
Proof.
  apply Permutation_singleton_r.
  now rewrite (set_iter_perm c {[d]}), elements_singleton.
Qed.

Lemma not_allowed_true (c : Collab) (domains : gset string) (url : string) :
  not_allowed c domains url = true <->
  ("*" ∉ domains) /\ (forall d, d ∈ domains -> Py.startswith url d = false).
Proof.
  unfold not_allowed.
  rewrite andb_true_iff, !negb_true_iff, bool_decide_eq_false.
  split; intros [Hstar Hany]; split; try exact Hstar.
  - intros d Hd. destruct (Py.startswith url d) eqn:E; [|reflexivity].
    assert (existsb (fun domain => Py.startswith url domain)
                    (set_iter c domains) = true) as Hex; [|congruence].
    apply existsb_exists. exists d. split; [|exact E].
    now apply list_elem_of_In, (proj2 (set_iter_elem c domains d)).
  - destruct (existsb _ _) eqn:E; [|reflexivity].
    apply existsb_exists in E as (d & Hd & E).
    apply list_elem_of_In, (proj1 (set_iter_elem c domains d)) in Hd.
    rewrite (Hany d Hd) in E. discriminate E.
Qed.

Lemma not_allowed_false (c : Collab) (domains : gset string) (url : string) :
  not_allowed c domains url = false <->
  ("*" ∈ domains) \/ (exists d, d ∈ domains /\ Py.startswith url d = true).
Proof.
  unfold not_allowed.
  rewrite andb_false_iff, !negb_false_iff, bool_decide_eq_true.
  split; (intros [H|H]; [now left|right]).
  - apply existsb_exists in H as (d & Hd & E).
    exists d. split; [|exact E].
    now apply (proj1 (set_iter_elem c domains d)), list_elem_of_In.
  - destruct H as (d & Hd & E). apply existsb_exists. exists d.
    split; [|exact E].
    now apply list_elem_of_In, (proj2 (set_iter_elem c domains d)).
Qed.

(** ** Claims about [fetch_docs] *)

(** C3.  For a locator that is neither [file://]-prefixed nor an existing
    path, when ["*"] is not in the allowed set and the locator starts with
    none of its members, [fetch_docs] returns the rejection string, which
    lists the members of the set in some order, after the file-system probe
    and without an HTTP request.  In particular, with the set
    [{"https://docs.example.com/"}], the locator
    [https://docs.example.com/page] passes the test and goes on to the GET,
    and [https://evil.example.com/page] is rejected with a string that ends
    with the allowed origin. *)
Theorem fetch_docs_rejects_outside_allowlist (c : Collab) (w : World) (srv : Server) :
  (forall url : string,
      Py.startswith url "file://" = false ->
      os_path_exists w url = false ->
      "*" ∉ server_domains srv ->
      (forall d, d ∈ server_domains srv -> Py.startswith url d = false) ->
      fetch_docs c w srv url
        = ([EvExists url], Ret (not_allowed_message c (server_domains srv)))
      /\ (forall u, EvHttpGet u ∉ trace (fetch_docs c w srv url))
      /\ exists listed : list string,
           listed ≡ₚ elements (server_domains srv)
           /\ not_allowed_message c (server_domains srv)
              = "Error: URL not allowed. Must start with one of the following domains: "
                +:+ Py.join ", " listed)
  /\ (server_domains srv = {["https://docs.example.com/"]} ->
      not_allowed c (server_domains srv) "https://docs.example.com/page" = false
      /\ (os_path_exists w "https://docs.example.com/page" = false ->
          trace (fetch_docs c w srv "https://docs.example.com/page")
            = [EvExists "https://docs.example.com/page";
               EvHttpGet "https://docs.example.com/page"])
      /\ (os_path_exists w "https://evil.example.com/page" = false ->
          fetch_docs c w srv "https://evil.example.com/page"
            = ([EvExists "https://evil.example.com/page"],
               Ret "Error: URL not allowed. Must start with one of the following domains: https://docs.example.com/"))).
Proof.
  split.
  - intros url Hscheme Hprobe Hstar Hnone.
    assert (not_allowed c (server_domains srv) url = true) as Hrej
      by (apply not_allowed_true; auto).
    rewrite (fetch_docs_remote c w srv url Hscheme Hprobe), Hrej.
    split; [reflexivity|]. split.
    + intros u Hu. simpl in Hu. apply list_elem_of_In in Hu.
      destruct Hu as [Hu|[]]. discriminate Hu.
    + exists (set_iter c (server_domains srv)).
      split; [apply set_iter_perm | reflexivity].
  - intros Hset.
    assert (not_allowed c (server_domains srv) "https://docs.example.com/page" = false)
      as Hpass.
    { apply not_allowed_false. right. exists "https://docs.example.com/".
      split; [rewrite Hset; now apply elem_of_singleton | reflexivity]. }
    split; [exact Hpass|]. split.
    + intros Hprobe.
      rewrite (fetch_docs_remote c w srv "https://docs.example.com/page"
                 eq_refl Hprobe), Hpass.
      simpl. now rewrite http_fetch_trace.
    + intros Hprobe.
      assert (not_allowed c (server_domains srv) "https://evil.example.com/page" = true)
        as Hrej.
      { apply not_allowed_true. rewrite Hset. split.
        - intros H. apply elem_of_singleton in H. discriminate H.
        - intros d Hd. apply elem_of_singleton in Hd. now subst d. }
      rewrite (fetch_docs_remote c w srv "https://evil.example.com/page"
                 eq_refl Hprobe), Hrej.
      unfold not_allowed_message. now rewrite Hset, set_iter_singleton.
Qed.

(** C4.  A locator with the [file://] prefix is read locally, at the path
    that follows the prefix, and nothing else happens: no file-system probe,
    no allowlist test, no HTTP request, whether or not the path exists.  A
    read that fails gives the local-read error string with the reason of the
    failure. *)
Theorem fetch_docs_file_scheme_is_terminal (c : Collab) (w : World) (srv : Server)
    (url : string) :
  Py.startswith url "file://" = true ->
  url = "file://" +:+ Py.slice_from 7 url
  /\ fetch_docs c w srv url
     = ([EvOpen (Py.slice_from 7 url)],
        Ret (local_result c w (Py.slice_from 7 url)))
  /\ (forall e, open_read w (Py.slice_from 7 url) = Raise e ->
      result (fetch_docs c w srv url)
        = Ret ("Error reading local file: " +:+ exn_str e))
  /\ (forall (w' : World) (srv' : Server),
      open_read w' (Py.slice_from 7 url) = open_read w (Py.slice_from 7 url) ->
      fetch_docs c w' srv' url = fetch_docs c w srv url).
Proof.
  intros Hscheme. split; [now apply slice_file_prefix|].
  assert (forall w0 srv0, fetch_docs c w0 srv0 url
            = ([EvOpen (Py.slice_from 7 url)],
               Ret (local_result c w0 (Py.slice_from 7 url)))) as Hrun.
  { intros w0 srv0. now rewrite fetch_docs_file, read_local_spec. }
  split; [apply Hrun|]. split.
  - intros e He. rewrite Hrun. unfold local_result. now rewrite He.
  - intros w' srv' Hsame. rewrite !Hrun. unfold local_result.
    now rewrite Hsame.
Qed.

(** C5.  A locator without the prefix at which the file-system probe
    succeeds is read and converted locally: after the probe there is one
    read of that very path, no HTTP request, and the result does not depend
    on the allowed set or on anything else the server holds. *)
Theorem fetch_docs_existing_path_is_local (c : Collab) (w : World) (srv : Server)
    (url : string) :
  Py.startswith url "file://" = false ->
  os_path_exists w url = true ->
  fetch_docs c w srv url
    = ([EvExists url; EvOpen url], Ret (local_result c w url))
  /\ (forall u, EvHttpGet u ∉ trace (fetch_docs c w srv url))
  /\ (forall srv' : Server, fetch_docs c w srv' url = fetch_docs c w srv url).
Proof.
  intros Hscheme Hprobe.
  split; [now apply fetch_docs_path|]. split.
  - intros u. rewrite (fetch_docs_path c w srv url Hscheme Hprobe). simpl.
    intros Hu. apply list_elem_of_In in Hu.
    destruct Hu as [Hu|[Hu|[]]]; discriminate Hu.
  - intros srv'. now rewrite !fetch_docs_path.
Qed.

(** C6.  For a locator that is neither [file://]-prefixed nor an existing
    path, when ["*"] is in the allowed set the allowlist test lets the
    locator through, whatever it is, and [fetch_docs] goes on to the HTTP
    GET of that locator; its result is the result of the GET step. *)
Theorem fetch_docs_allow_all_reaches_http (c : Collab) (w : World) (srv : Server)
    (url : string) :
  Py.startswith url "file://" = false ->
  os_path_exists w url = false ->
  "*" ∈ server_domains srv ->
  not_allowed c (server_domains srv) url = false
  /\ trace (fetch_docs c w srv url) = [EvExists url; EvHttpGet url]
  /\ result (fetch_docs c w srv url) = result (http_fetch c w srv url).
Proof.
  intros Hscheme Hprobe Hstar.
  assert (not_allowed c (server_domains srv) url = false) as Hpass
    by (apply not_allowed_false; now left).
  rewrite (fetch_docs_remote c w srv url Hscheme Hprobe), Hpass.
  split; [reflexivity|]. simpl. now rewrite http_fetch_trace.
Qed.

Lemma fetch_docs_rejects_outside_allowlist_witness :
  fetch_docs Sample.collab (Sample.world [] Sample.echo)
             (Sample.server [] {["https://a.com/"]}) "https://b.com/page"
    = ([EvExists "https://b.com/page"],
       Ret "Error: URL not allowed. Must start with one of the following domains: https://a.com/")
  /\ fetch_docs Sample.collab (Sample.world [] Sample.echo)
                (Sample.server [] {["https://docs.example.com/"]})
                "https://evil.example.com/page"
     = ([EvExists "https://evil.example.com/page"],
        Ret "Error: URL not allowed. Must start with one of the following domains: https://docs.example.com/").
Proof.
  split.
  - destruct (fetch_docs_rejects_outside_allowlist Sample.collab
                (Sample.world [] Sample.echo)
                (Sample.server [] {["https://a.com/"]})) as [general _].
    destruct (general "https://b.com/page") as [run _].
    + reflexivity.
    + reflexivity.
    + simpl. intros H. apply elem_of_singleton in H. discriminate H.
    + simpl. intros d Hd. apply elem_of_singleton in Hd. subst d. reflexivity.
    + rewrite run. unfold not_allowed_message. simpl.
      rewrite elements_singleton. reflexivity.
  - destruct (fetch_docs_rejects_outside_allowlist Sample.collab
                (Sample.world [] Sample.echo)
                (Sample.server [] {["https://docs.example.com/"]}))
      as [_ particular].
    destruct (particular eq_refl) as (_ & _ & rejected).
    exact (rejected eq_refl).
Defined.

Lemma fetch_docs_file_scheme_is_terminal_witness :
  Py.startswith "file:///missing.txt" "file://" = true
  /\ fetch_docs Sample.collab (Sample.world [] Sample.echo)
                (Sample.server [] ∅) "file:///missing.txt"
     = ([EvOpen "/missing.txt"],
        Ret "Error reading local file: [Errno 2] No such file or directory: '/missing.txt'").
Proof.
  split; [reflexivity|].
  exact (proj1 (proj2 (fetch_docs_file_scheme_is_terminal Sample.collab
                         (Sample.world [] Sample.echo) (Sample.server [] ∅)
                         "file:///missing.txt" eq_refl))).
Defined.

Lemma fetch_docs_existing_path_is_local_witness :
  os_path_exists (Sample.world [("docs/llms.txt", "# Guide")] Sample.echo)
                 "docs/llms.txt" = true
  /\ fetch_docs Sample.collab
                (Sample.world [("docs/llms.txt", "# Guide")] Sample.echo)
                (Sample.server [] {["https://a.com/"]}) "docs/llms.txt"
     = ([EvExists "docs/llms.txt"; EvOpen "docs/llms.txt"], Ret "# Guide").
Proof.
  split; [reflexivity|].
  exact (proj1 (fetch_docs_existing_path_is_local Sample.collab
                  (Sample.world [("docs/llms.txt", "# Guide")] Sample.echo)
                  (Sample.server [] {["https://a.com/"]}) "docs/llms.txt"
                  eq_refl eq_refl)).
Defined.

Lemma fetch_docs_allow_all_reaches_http_witness :
  trace (fetch_docs Sample.collab (Sample.world [] Sample.echo)
                    (Sample.server [] {["*"]}) "https://anywhere.example/x")
  = [EvExists "https://anywhere.example/x"; EvHttpGet "https://anywhere.example/x"].
Proof.
  refine (proj1 (proj2 (fetch_docs_allow_all_reaches_http Sample.collab
                          (Sample.world [] Sample.echo)
                          (Sample.server [] {["*"]})
                          "https://anywhere.example/x" eq_refl eq_refl _))).
  simpl. now apply elem_of_singleton.
Defined.

(** C8.  For a local locator, two calls of [fetch_docs] return the same
    string whenever the file read gives the same content (or the same
    failure) both times: nothing else in the world, and nothing the server
    holds, has a part in the result. *)
Theorem fetch_docs_local_is_deterministic (c : Collab) (w1 w2 : World)
    (srv1 srv2 : Server) (url : string) :
  (Py.startswith url "file://" = true
   /\ open_read w1 (Py.slice_from 7 url) = open_read w2 (Py.slice_from 7 url))
  \/ (Py.startswith url "file://" = false
      /\ os_path_exists w1 url = true /\ os_path_exists w2 url = true
      /\ open_read w1 url = open_read w2 url) ->
  fetch_docs c w1 srv1 url = fetch_docs c w2 srv2 url.
Proof.
  intros [[Hscheme Hsame] | (Hscheme & Hprobe1 & Hprobe2 & Hsame)].
  - rewrite !fetch_docs_file, !read_local_spec by exact Hscheme.
    unfold local_result. now rewrite Hsame.
  - rewrite !fetch_docs_path by assumption.
    unfold local_result. now rewrite Hsame.
Qed.

Lemma fetch_docs_local_is_deterministic_witness :
  fetch_docs Sample.collab
             (Sample.world [("notes.md", "# Notes")] Sample.echo)
             (Sample.server [] {["https://a.com/"]}) "notes.md"
  = fetch_docs Sample.collab
               (Sample.world [("other.md", ""); ("notes.md", "# Notes")]
                             Sample.unreachable)
               (Sample.server [] {["*"]}) "notes.md".
Proof.
  apply fetch_docs_local_is_deterministic.
  right. repeat split; reflexivity.
Defined.

(** ** Which exceptions leave [fetch_docs] *)

(** The two local branches and the rejection always return. *)
Lemma fetch_docs_local_returns (c : Collab) (w : World) (srv : Server)
    (url : string) :
  is_local_locator w url = true ->
  returns (result (fetch_docs c w srv url)) = true.
Proof.
  unfold is_local_locator. intros H.
  destruct (Py.startswith url "file://") eqn:Hscheme.
  - now rewrite fetch_docs_file, read_local_spec.
  - simpl in H. now rewrite fetch_docs_path.
Qed.

(** An exception leaves [fetch_docs] only from the HTTP step, and only when
    it is of neither httpx class. *)
Lemma fetch_docs_raise_inv (c : Collab) (w : World) (srv : Server)
    (url : string) (e : exn) :
  result (fetch_docs c w srv url) = Raise e ->
  is_local_locator w url = false
  /\ not_allowed c (server_domains srv) url = false
  /\ is_httpx_error e = false
  /\ (httpx_get w (server_client srv) (server_timeout srv) url = Raise e
      \/ exists response,
           httpx_get w (server_client srv) (server_timeout srv) url = Ret response
           /\ is_success response = true
           /\ markdownify c (text response) = Raise e).
Proof.
  intros Hraise.
  destruct (is_local_locator w url) eqn:Hlocal.
  { pose proof (fetch_docs_local_returns c w srv url Hlocal) as Hret.
    rewrite Hraise in Hret. discriminate Hret. }
  unfold is_local_locator in Hlocal. apply orb_false_iff in Hlocal as [Hscheme Hprobe].
  rewrite (fetch_docs_remote c w srv url Hscheme Hprobe) in Hraise.
  destruct (not_allowed c (server_domains srv) url); [discriminate Hraise|].
  split; [reflexivity|]. split; [reflexivity|].
  revert Hraise.
  unfold http_fetch, try_except, bind, perform, lift, result, raise_for_status.
  simpl.
  destruct (httpx_get w _ _ url) as [response|e1]; simpl.
  - destruct (is_success response) eqn:Hok; simpl.
    + destruct (markdownify c (text response)) as [s|e2] eqn:Hmd; simpl;
        [discriminate|].
      destruct (is_httpx_error e2) eqn:Hcls; simpl; [discriminate|].
      intros [= <-]. split; [exact Hcls|].
      right. exists response. auto.
    + discriminate.
  - destruct (is_httpx_error e1) eqn:Hcls; simpl; [discriminate|].
    intros [= <-]. split; [exact Hcls|]. now left.
Qed.

(** Conversely, whatever the GET raises outside the two httpx classes
    leaves [fetch_docs] as it is. *)
Lemma fetch_docs_get_failure_escapes (c : Collab) (w : World) (srv : Server)
    (url : string) (e : exn) :
  is_local_locator w url = false ->
  not_allowed c (server_domains srv) url = false ->
  httpx_get w (server_client srv) (server_timeout srv) url = Raise e ->
  is_httpx_error e = false ->
  fetch_docs c w srv url = ([EvExists url; EvHttpGet url], Raise e).
Proof.
  unfold is_local_locator. intros Hlocal Hpass Hget Hcls.
  apply orb_false_iff in Hlocal as [Hscheme Hprobe].
  rewrite (fetch_docs_remote c w srv url Hscheme Hprobe), Hpass.
  unfold http_fetch, try_except, bind, perform, lift, trace, result.
  now rewrite Hget, Hcls.
Qed.

(** And the two httpx classes are turned into the result string. *)
Lemma fetch_docs_httpx_failure_returns (c : Collab) (w : World) (srv : Server)
    (url : string) (e : exn) :
  is_local_locator w url = false ->
  not_allowed c (server_domains srv) url = false ->
  httpx_get w (server_client srv) (server_timeout srv) url = Raise e ->
  is_httpx_error e = true ->
  fetch_docs c w srv url
  = ([EvExists url; EvHttpGet url],
     Ret ("Encountered an HTTP error: " +:+ exn_str e)).
Proof.
  unfold is_local_locator. intros Hlocal Hpass Hget Hcls.
  apply orb_false_iff in Hlocal as [Hscheme Hprobe].
  rewrite (fetch_docs_remote c w srv url Hscheme Hprobe), Hpass.
  unfold http_fetch, try_except, bind, perform, lift, trace, result.
  now rewrite Hget, Hcls.
Qed.

(** C1.  [fetch_docs] does let an exception through on the remote path.
    With every origin allowed, a locator the HTTP client refuses with
    [InvalidURL] (which is not a [RequestError]) makes the call raise; so
    does a response body on which the converter fails, although the same
    failure of the converter on a local file is returned as a string. *)
Theorem fetch_docs_remote_exception_escapes :
  fetch_docs Sample.collab (Sample.world [] Sample.strict)
             (Sample.server [] {["*"]}) "http://example.com:abc/"
    = ([EvExists "http://example.com:abc/"; EvHttpGet "http://example.com:abc/"],
       Raise (Exn (OtherException "httpx.InvalidURL") "Invalid port: 'abc'"))
  /\ fetch_docs (Sample.collab_with Sample.failing_converter)
                (Sample.world [] Sample.echo)
                (Sample.server [] {["https://a.com/"]}) "https://a.com/page"
     = ([EvExists "https://a.com/page"; EvHttpGet "https://a.com/page"],
        Raise (Exn (OtherException "RecursionError")
                   "maximum recursion depth exceeded"))
  /\ fetch_docs (Sample.collab_with Sample.failing_converter)
                (Sample.world [("page.html", "<p>")] Sample.echo)
                (Sample.server [] {["https://a.com/"]}) "file://page.html"
     = ([EvOpen "page.html"],
        Ret "Error reading local file: maximum recursion depth exceeded").
Proof. repeat split; vm_compute; reflexivity. Qed.

(** ** The shape of the members of the allowed set *)

Lemma extract_domain_ret (c : Collab) (url : string) (parsed : ParseResult) :
  urlparse c url = Ret parsed ->
  extract_domain c url
  = Ret (scheme parsed +:+ "://" +:+ netloc parsed +:+ "/")
  /\ origin_of c url = Some (scheme parsed +:+ "://" +:+ netloc parsed +:+ "/").
Proof. unfold extract_domain, origin_of. now intros ->. Qed.

Lemma extract_domain_raise (c : Collab) (url : string) (e : exn) :
  urlparse c url = Raise e ->
  extract_domain c url = Raise e /\ origin_of c url = None.
Proof. unfold extract_domain, origin_of. now intros ->. Qed.

Lemma ends_with_slash_app (body : string) : ends_with_slash (body +:+ "/") = true.
Proof.
  induction body as [|ch body IH]; [reflexivity|].
  rewrite append_cons. destruct body as [|ch' body]; [reflexivity|].
  rewrite append_cons in *. exact IH.
Qed.

Lemma origin_slash (parsed : ParseResult) :
  ends_with_slash (scheme parsed +:+ "://" +:+ netloc parsed +:+ "/") = true.
Proof. rewrite <- !append_assoc. apply ends_with_slash_app. Qed.

Lemma remote_origins_elem (c : Collab) (w : World) (sources : list DocSource)
    (d : string) :
  d ∈ remote_origins c w sources <->
  exists entry parsed,
    entry ∈ sources
    /\ is_local_locator w (llms_txt entry) = false
    /\ urlparse c (llms_txt entry) = Ret parsed
    /\ d = scheme parsed +:+ "://" +:+ netloc parsed +:+ "/".
Proof.
  unfold remote_origins. rewrite elem_of_list_to_set, list_elem_of_omap.
  split.
  - intros (entry & Hin & Horigin).
    apply list_elem_of_In, filter_In in Hin as [Hin Hremote].
    apply list_elem_of_In in Hin. apply negb_true_iff in Hremote.
    unfold origin_of in Horigin.
    destruct (urlparse c (llms_txt entry)) as [parsed|e] eqn:Hparse;
      [|discriminate Horigin].
    injection Horigin as <-. exists entry, parsed. auto.
  - intros (entry & parsed & Hin & Hremote & Hparse & ->).
    exists entry. split.
    + apply list_elem_of_In, filter_In. split.
      * now apply list_elem_of_In.
      * now apply negb_true_iff.
    + unfold origin_of. now rewrite Hparse.
Qed.

(** ** Claims about [create_server] *)

Lemma is_local_spec (w : World) (locator : string) :
  is_local w locator
  = ((if Py.startswith locator "file://" then [] else [EvExists locator]),
     Ret (is_local_locator w locator)).
Proof.
  unfold is_local, is_local_locator.
  now destruct (Py.startswith locator "file://").
Qed.

Lemma bind_is_local {B} (w : World) (locator : string) (k : bool -> io B) :
  bind (is_local w locator) k
  = (((if Py.startswith locator "file://" then [] else [EvExists locator])
      ++ trace (k (is_local_locator w locator)))%list,
     result (k (is_local_locator w locator))).
Proof.
  rewrite is_local_spec. unfold bind, trace, result.
  now destruct (k (is_local_locator w locator)).
Qed.

Lemma bind_lift_ret {A B} (a : A) (k : A -> io B) :
  bind (lift (Ret a)) k = k a.
Proof. unfold bind, lift. now destruct (k a). Qed.

Lemma bind_lift_raise {A B} (e : exn) (k : A -> io B) :
  bind (lift (Raise e)) k = ([], Raise e).
Proof. reflexivity. Qed.

Lemma probes_cons (w : World) (entry : DocSource) (rest : list DocSource) :
  probes w (entry :: rest)
  = ((if Py.startswith (llms_txt entry) "file://" then []
      else [EvExists (llms_txt entry)]) ++ probes w rest)%list.
Proof.
  unfold probes. simpl.
  now destruct (Py.startswith (llms_txt entry) "file://").
Qed.

(** A loop that never stops probes every source. *)
Lemma probes_until_all (stops : DocSource -> bool) (w : World)
    (sources : list DocSource) :
  forallb (fun entry => negb (stops entry)) sources = true ->
  probes_until stops sources = probes w sources.
Proof.
  induction sources as [|entry rest IH]; [reflexivity|].
  cbn [forallb probes_until]. rewrite probes_cons. intros H.
  apply andb_true_iff in H as [Hgo Hrest]. apply negb_true_iff in Hgo.
  now rewrite Hgo, (IH Hrest).
Qed.

Lemma elem_of_probes_until (stops : DocSource -> bool)
    (sources : list DocSource) (ev : event) :
  ev ∈ probes_until stops sources ->
  exists entry, entry ∈ sources
                /\ Py.startswith (llms_txt entry) "file://" = false
                /\ ev = EvExists (llms_txt entry).
Proof.
  induction sources as [|entry rest IH]; cbn [probes_until].
  - intros H. inversion H.
  - rewrite elem_of_app. intros [H|H].
    + destruct (Py.startswith (llms_txt entry) "file://") eqn:Hscheme;
        [inversion H|].
      apply list_elem_of_In in H. destruct H as [<-|[]].
      exists entry. split; [left | auto].
    + destruct (stops entry); [inversion H|].
      destruct (IH H) as (found & Hin & Hrest).
      exists found. split; [now right | exact Hrest].
Qed.

Lemma remote_origins_cons_local (c : Collab) (w : World) (entry : DocSource)
    (rest : list DocSource) :
  is_local_locator w (llms_txt entry) = true ->
  remote_origins c w (entry :: rest) = remote_origins c w rest.
Proof. unfold remote_origins. cbn [List.filter]. now intros ->. Qed.

Lemma remote_origins_cons_remote (c : Collab) (w : World) (entry : DocSource)
    (rest : list DocSource) (d : string) :
  is_local_locator w (llms_txt entry) = false ->
  origin_of c (llms_txt entry) = Some d ->
  remote_origins c w (entry :: rest) = {[d]} ∪ remote_origins c w rest.
Proof.
  unfold remote_origins. cbn [List.filter]. intros -> Horigin.
  cbn [negb]. change (omap ?f (entry :: ?l))
    with (match f entry with Some y => y :: omap f l | None => omap f l end).
  cbv beta. now rewrite Horigin.
Qed.

Lemma has_local_source_cons (w : World) (entry : DocSource)
    (rest : list DocSource) :
  has_local_source w (entry :: rest)
  = is_local_locator w (llms_txt entry) || has_local_source w rest.
Proof. reflexivity. Qed.

Lemma remote_sources_parse_cons (c : Collab) (w : World) (entry : DocSource)
    (rest : list DocSource) :
  remote_sources_parse c w (entry :: rest)
  = source_parses c w entry && remote_sources_parse c w rest.
Proof. reflexivity. Qed.

(** The loop over the sources probes them in order and stops at the first
    remote source whose locator [urlparse] refuses; if there is none it
    adds the origin of every remote source and remembers whether it met a
    local one. *)
Lemma scan_sources_spec (c : Collab) (w : World) (sources : list DocSource)
    (domains : gset string) (has_local_files : bool) :
  trace (scan_sources c w sources domains has_local_files)
    = probes_until (fun entry => negb (source_parses c w entry)) sources
  /\ (remote_sources_parse c w sources = true ->
      result (scan_sources c w sources domains has_local_files)
      = Ret (domains ∪ remote_origins c w sources,
             has_local_files || has_local_source w sources))
  /\ (remote_sources_parse c w sources = false ->
      exists entry e,
        entry ∈ sources
        /\ is_local_locator w (llms_txt entry) = false
        /\ urlparse c (llms_txt entry) = Raise e
        /\ result (scan_sources c w sources domains has_local_files)
           = Raise e).
Proof.
  revert domains has_local_files.
  induction sources as [|entry rest IH]; intros domains has_local_files.
  - unfold remote_origins. cbn. split; [reflexivity|]. split; [|discriminate].
    intros _. now rewrite (right_id_L ∅ (∪)), orb_false_r.
  - cbn [scan_sources probes_until]. rewrite bind_is_local.
    rewrite remote_sources_parse_cons, has_local_source_cons.
    cbn [trace result fst snd].
    destruct (is_local_locator w (llms_txt entry)) eqn:Hlocal.
    + assert (source_parses c w entry = true) as ->
        by (unfold source_parses; now rewrite Hlocal).
      cbn [negb orb andb].
      rewrite (remote_origins_cons_local c w entry rest Hlocal).
      destruct (IH domains true) as (Htrace & Hok & Hfail).
      split; [now rewrite Htrace|]. split.
      * intros Hparse. rewrite (Hok Hparse). now rewrite orb_true_r.
      * intros Hparse. destruct (Hfail Hparse) as (bad & e & Hin & Hrest).
        exists bad, e. split; [now right | exact Hrest].
    + destruct (urlparse c (llms_txt entry)) as [parsed|e] eqn:Hparsed.
      * assert (source_parses c w entry = true) as ->
          by (unfold source_parses; now rewrite Hlocal, Hparsed).
        destruct (extract_domain_ret c _ parsed Hparsed) as [Hdomain Horigin].
        rewrite Hdomain, bind_lift_ret. cbn [negb orb andb].
        rewrite (remote_origins_cons_remote c w entry rest _ Hlocal Horigin).
        destruct (IH (domains ∪ {[scheme parsed +:+ "://" +:+ netloc parsed +:+ "/"]})
                     has_local_files) as (Htrace & Hok & Hfail).
        split; [now rewrite Htrace|]. split.
        -- intros Hparse. rewrite (Hok Hparse). now rewrite (assoc_L (∪)).
        -- intros Hparse. destruct (Hfail Hparse) as (bad & e & Hin & Hrest).
           exists bad, e. split; [now right | exact Hrest].
      * assert (source_parses c w entry = false) as ->
          by (unfold source_parses; now rewrite Hlocal, Hparsed).
        destruct (extract_domain_raise c _ e Hparsed) as [Hdomain _].
        rewrite Hdomain, bind_lift_raise. cbn [negb orb andb fst snd].
        split; [reflexivity|]. split; [discriminate|].
        intros _. exists entry, e. split; [left | auto].
Qed.

Lemma widen_domains_spec (c : Collab) (w : World) (sources : list DocSource)
    (extra_domains : option (list string)) :
  widen_domains (∅ ∪ remote_origins c w sources)
                (false || has_local_source w sources) extra_domains
  = allowed_domain_set c w sources extra_domains.
Proof.
  rewrite (left_id_L ∅ (∪)), orb_false_l.
  unfold widen_domains, allowed_domain_set.
  destruct extra_domains as [[|d extra]|]; simpl.
  - now rewrite andb_true_r, (right_id_L ∅ (∪)).
  - destruct (bool_decide ("*" ∈ d :: extra)); [reflexivity|].
    now rewrite andb_false_r.
  - now rewrite andb_true_r, (right_id_L ∅ (∪)).
Qed.

Lemma probes_until_parse (c : Collab) (w : World) (sources : list DocSource) :
  remote_sources_parse c w sources = true ->
  probes_until (fun entry => negb (source_parses c w entry)) sources
  = probes w sources.
Proof.
  intros Hparse. apply probes_until_all.
  unfold remote_sources_parse in Hparse.
  rewrite forallb_forall in *. intros entry Hin.
  now rewrite (Hparse entry Hin).
Qed.

(** After the constructor has accepted the settings, [create_server] is the
    loop over the sources followed by the choice of the allowed set. *)
Lemma create_server_accepted (c : Collab) (w : World)
    (doc_source : list DocSource) (redirects : bool) (timeout : Q)
    (kwargs : gmap string pyval) (extra_domains : option (list string)) :
  FastMCP c kwargs = Ret tt ->
  create_server c w doc_source redirects timeout (Some kwargs) extra_domains
  = (trace (scan_sources c w doc_source ∅ false),
     match result (scan_sources c w doc_source ∅ false) with
     | Ret scanned =>
         Ret {| server_sources := doc_source;
                server_client := {| follow_redirects := redirects;
                                    client_timeout := timeout |};
                server_timeout := timeout;
                server_domains :=
                  widen_domains (fst scanned) (snd scanned) extra_domains |}
     | Raise e => Raise e
     end).
Proof.
  intros Hctor. unfold create_server. rewrite Hctor, bind_lift_ret.
  unfold bind, ret, trace, result.
  destruct (scan_sources c w doc_source ∅ false) as [probed [scanned|e]];
    cbn [fst snd]; [now rewrite app_nil_r | reflexivity].
Qed.

Lemma create_server_spec (c : Collab) (w : World) (doc_source : list DocSource)
    (redirects : bool) (timeout : Q) (kwargs : gmap string pyval)
    (extra_domains : option (list string)) :
  FastMCP c kwargs = Ret tt ->
  remote_sources_parse c w doc_source = true ->
  create_server c w doc_source redirects timeout (Some kwargs) extra_domains
  = (probes w doc_source,
     Ret (created c w doc_source redirects timeout extra_domains)).
Proof.
  intros Hctor Hparse.
  rewrite (create_server_accepted c w doc_source redirects timeout kwargs
             extra_domains Hctor).
  destruct (scan_sources_spec c w doc_source ∅ false) as (-> & Hok & _).
  rewrite (Hok Hparse), (probes_until_parse c w doc_source Hparse).
  cbn [fst snd]. unfold created. now rewrite widen_domains_spec.
Qed.

(** A locator [urlparse] refuses makes [create_server] raise. *)
Lemma create_server_parse_failure (c : Collab) (w : World)
    (doc_source : list DocSource) (redirects : bool) (timeout : Q)
    (kwargs : gmap string pyval) (extra_domains : option (list string)) :
  FastMCP c kwargs = Ret tt ->
  remote_sources_parse c w doc_source = false ->
  exists entry e,
    entry ∈ doc_source
    /\ is_local_locator w (llms_txt entry) = false
    /\ urlparse c (llms_txt entry) = Raise e
    /\ result (create_server c w doc_source redirects timeout (Some kwargs)
                             extra_domains) = Raise e.
Proof.
  intros Hctor Hparse.
  rewrite (create_server_accepted c w doc_source redirects timeout kwargs
             extra_domains Hctor).
  destruct (scan_sources_spec c w doc_source ∅ false) as (_ & _ & Hfail).
  destruct (Hfail Hparse) as (entry & e & Hin & Hremote & Hraise & Hrun).
  exists entry, e. unfold result at 1. cbn [snd]. now rewrite Hrun.
Qed.

(** What is known of a server that [create_server] has returned. *)
Lemma create_server_ret_inv (c : Collab) (w : World)
    (doc_source : list DocSource) (redirects : bool) (timeout : Q)
    (settings : option (gmap string pyval))
    (extra_domains : option (list string)) (srv : Server) :
  result (create_server c w doc_source redirects timeout settings
                        extra_domains) = Ret srv ->
  exists kwargs,
    settings = Some kwargs
    /\ FastMCP c kwargs = Ret tt
    /\ remote_sources_parse c w doc_source = true
    /\ srv = created c w doc_source redirects timeout extra_domains.
Proof.
  intros Hrun. destruct settings as [kwargs|]; [|discriminate Hrun].
  exists kwargs. split; [reflexivity|].
  destruct (FastMCP c kwargs) as [[]|e] eqn:Hctor.
  - split; [reflexivity|].
    destruct (remote_sources_parse c w doc_source) eqn:Hparse.
    + split; [reflexivity|].
      rewrite (create_server_spec c w doc_source redirects timeout kwargs
                 extra_domains Hctor Hparse) in Hrun.
      now injection Hrun as <-.
    + destruct (create_server_parse_failure c w doc_source redirects timeout
                  kwargs extra_domains Hctor Hparse)
        as (entry & e & _ & _ & _ & Hraise).
      rewrite Hraise in Hrun. discriminate Hrun.
  - unfold create_server, bind, lift in Hrun. rewrite Hctor in Hrun.
    discriminate Hrun.
Qed.

(** C2.  When the constructor of the framework accepts the settings and
    [urlparse] accepts the locator of every remote source, [create_server]
    returns a server whose allowed set is the one the specification
    describes: ["*"] alone if ["*"] is among the extra domains; ["*"] alone
    if a source is local, no remote origin was collected and no extra
    domain is configured; otherwise the origins [scheme://netloc/] of the
    remote sources together with the extra domains. *)
Theorem create_server_allowed_domains (c : Collab) (w : World)
    (doc_source : list DocSource) (redirects : bool) (timeout : Q)
    (kwargs : gmap string pyval) (extra_domains : option (list string)) :
  FastMCP c kwargs = Ret tt ->
  remote_sources_parse c w doc_source = true ->
  exists srv : Server,
    result (create_server c w doc_source redirects timeout (Some kwargs)
                          extra_domains) = Ret srv
    /\ server_domains srv = allowed_domain_set c w doc_source extra_domains
    /\ (forall extra, extra_domains = Some extra -> "*" ∈ extra ->
        server_domains srv = {["*"]})
    /\ (has_local_source w doc_source = true ->
        remote_origins c w doc_source = ∅ ->
        extra_domains = None \/ extra_domains = Some [] ->
        server_domains srv = {["*"]})
    /\ (forall extra, default [] extra_domains = extra -> "*" ∉ extra ->
        (has_local_source w doc_source = false
         \/ remote_origins c w doc_source <> ∅ \/ extra <> []) ->
        forall d, d ∈ server_domains srv <->
                  (exists entry parsed,
                      entry ∈ doc_source
                      /\ is_local_locator w (llms_txt entry) = false
                      /\ urlparse c (llms_txt entry) = Ret parsed
                      /\ d = scheme parsed +:+ "://" +:+ netloc parsed +:+ "/")
                  \/ d ∈ extra).
Proof.
  intros Hctor Hparse. exists (created c w doc_source redirects timeout extra_domains).
  split.
  { now rewrite (create_server_spec c w doc_source redirects timeout kwargs
                   extra_domains Hctor Hparse). }
  cbn [created server_domains]. split; [reflexivity|].
  unfold allowed_domain_set. split; [|split].
  - intros extra -> Hstar. simpl. now rewrite bool_decide_eq_true_2.
  - intros Hlocal Hnone Hextra.
    assert (default [] extra_domains = []) as -> by (now destruct Hextra as [->| ->]).
    rewrite bool_decide_eq_false_2 by (intros H; inversion H).
    rewrite Hlocal, Hnone.
    now rewrite !bool_decide_eq_true_2.
  - intros extra -> Hstar Hcase d.
    rewrite bool_decide_eq_false_2 by exact Hstar.
    assert (has_local_source w doc_source
            && bool_decide (remote_origins c w doc_source = ∅)
            && bool_decide (extra = []) = false) as ->.
    { destruct Hcase as [-> | [Hne | Hne]]; [reflexivity| |].
      - rewrite (bool_decide_eq_false_2 _ Hne). now rewrite andb_false_r.
      - rewrite (bool_decide_eq_false_2 _ Hne). now rewrite andb_false_r. }
    now rewrite elem_of_union, elem_of_list_to_set, remote_origins_elem.
Qed.

Lemma create_server_allowed_domains_witness :
  (exists srv : Server,
      result (create_server Sample.collab (Sample.world [] Sample.echo)
                [Sample.source None "https://a.com/llms.txt"] false 10
                (Some ∅) None) = Ret srv
      /\ server_domains srv = {["https://a.com/"]})
  /\ (exists srv : Server,
        result (create_server Sample.collab
                  (Sample.world [("notes.md", "# Notes")] Sample.echo)
                  [Sample.source None "notes.md";
                   Sample.source None "file:///srv/llms.txt"] false 10
                  (Some ∅) None) = Ret srv
        /\ server_domains srv = {["*"]})
  /\ (exists srv : Server,
        result (create_server Sample.collab (Sample.world [] Sample.echo)
                  [Sample.source None "https://a.com/llms.txt"] false 10
                  (Some ∅) (Some ["https://b.org/"; "*"])) = Ret srv
        /\ server_domains srv = {["*"]})
  /\ (exists srv : Server,
        result (create_server Sample.collab
                  (Sample.world [("notes.md", "# Notes")] Sample.echo)
                  [Sample.source None "notes.md";
                   Sample.source None "https://a.com/llms.txt"] false 10
                  (Some ∅) (Some ["https://b.org"])) = Ret srv
        /\ server_domains srv = {["https://a.com/"]} ∪ {["https://b.org"]}).
Proof.
  split; [|split; [|split]].
  - destruct (create_server_allowed_domains Sample.collab
                (Sample.world [] Sample.echo)
                [Sample.source None "https://a.com/llms.txt"] false 10 ∅ None
                eq_refl eq_refl) as (srv & Hrun & Hset & _).
    exists srv. split; [exact Hrun|]. rewrite Hset. vm_compute. reflexivity.
  - destruct (create_server_allowed_domains Sample.collab
                (Sample.world [("notes.md", "# Notes")] Sample.echo)
                [Sample.source None "notes.md";
                 Sample.source None "file:///srv/llms.txt"] false 10 ∅ None
                eq_refl eq_refl) as (srv & Hrun & _ & _ & Hlocal & _).
    exists srv. split; [exact Hrun|].
    apply Hlocal; [reflexivity | vm_compute; reflexivity | now left].
  - destruct (create_server_allowed_domains Sample.collab
                (Sample.world [] Sample.echo)
                [Sample.source None "https://a.com/llms.txt"] false 10 ∅
                (Some ["https://b.org/"; "*"])
                eq_refl eq_refl) as (srv & Hrun & _ & Hstar & _).
    exists srv. split; [exact Hrun|].
    apply (Hstar _ eq_refl). right. left.
  - destruct (create_server_allowed_domains Sample.collab
                (Sample.world [("notes.md", "# Notes")] Sample.echo)
                [Sample.source None "notes.md";
                 Sample.source None "https://a.com/llms.txt"] false 10 ∅
                (Some ["https://b.org"])
                eq_refl eq_refl) as (srv & Hrun & Hset & _).
    exists srv. split; [exact Hrun|]. rewrite Hset. vm_compute. reflexivity.
Defined.

(** C10.  Without settings ([None], which is also the default)
    [create_server] raises a [TypeError] before it does anything else; it
    returns a server only for settings that are a mapping the constructor
    of the framework accepts, and does return one for such a mapping when
    [urlparse] accepts the locator of every remote source. *)
Theorem create_server_needs_settings (c : Collab) (w : World)
    (doc_source : list DocSource) (redirects : bool) (timeout : Q)
    (extra_domains : option (list string)) :
  (trace (create_server c w doc_source redirects timeout None extra_domains)
     = []
   /\ exists e,
        result (create_server c w doc_source redirects timeout None
                              extra_domains) = Raise e
        /\ exn_cls e = TypeError)
  /\ (forall settings srv,
        result (create_server c w doc_source redirects timeout settings
                              extra_domains) = Ret srv ->
        exists kwargs, settings = Some kwargs /\ FastMCP c kwargs = Ret tt)
  /\ (forall kwargs,
        FastMCP c kwargs = Ret tt ->
        remote_sources_parse c w doc_source = true ->
        returns (result (create_server c w doc_source redirects timeout
                                       (Some kwargs) extra_domains)) = true).
Proof.
  split; [|split].
  - split; [reflexivity|]. eexists. split; reflexivity.
  - intros settings srv Hrun.
    destruct (create_server_ret_inv c w doc_source redirects timeout settings
                extra_domains srv Hrun) as (kwargs & Hsome & Hctor & _).
    eauto.
  - intros kwargs Hctor Hparse.
    now rewrite (create_server_spec c w doc_source redirects timeout kwargs
                   extra_domains Hctor Hparse).
Qed.

Lemma create_server_needs_settings_witness :
  returns (result (create_server Sample.collab (Sample.world [] Sample.echo)
                     [Sample.source None "https://a.com/llms.txt"] false 10
                     (Some {["debug" := PyBool true]}) None)) = true
  /\ returns (result (create_server Sample.collab (Sample.world [] Sample.echo)
                        [Sample.source None "https://a.com/llms.txt"] false 10
                        None None)) = false.
Proof.
  destruct (create_server_needs_settings Sample.collab
              (Sample.world [] Sample.echo)
              [Sample.source None "https://a.com/llms.txt"] false 10 None)
    as ((_ & e & Hnone & _) & _ & Hsome).
  split.
  - apply Hsome; reflexivity.
  - now rewrite Hnone.
Defined.

(** The allowlist test lets through every extension of a member. *)
Lemma not_allowed_extension (c : Collab) (domains : gset string)
    (d rest : string) :
  d ∈ domains -> not_allowed c domains (d +:+ rest) = false.
Proof.
  intros Hd. apply not_allowed_false. right. exists d.
  split; [exact Hd | apply startswith_app].
Qed.

(** C9.  In the allowed set of a returned server, every member that comes
    from a remote source is [scheme://netloc/] as [urlparse] splits the
    locator, and ends with a slash, while the extra domains are members as
    they were written.  The allowlist test is a prefix test, so every
    locator that extends a member passes it and goes on to the GET.  With
    the extra domain [https://a.com], which has no final slash,
    [https://a.com.evil.example/x] is let through. *)
Theorem allowlist_admits_extensions_of_extra_domains (c : Collab) (w : World) :
  (forall sources d,
      d ∈ remote_origins c w sources ->
      ends_with_slash d = true
      /\ exists entry parsed,
           entry ∈ sources
           /\ urlparse c (llms_txt entry) = Ret parsed
           /\ d = scheme parsed +:+ "://" +:+ netloc parsed +:+ "/")
  /\ (forall sources redirects timeout settings extra srv,
        result (create_server c w sources redirects timeout settings
                              (Some extra)) = Ret srv ->
        extra <> [] ->
        "*" ∉ extra ->
        (forall a, a ∈ extra -> a ∈ server_domains srv)
        /\ (forall d, d ∈ server_domains srv ->
              d ∈ extra \/ d ∈ remote_origins c w sources))
  /\ (forall srv d rest,
        d ∈ server_domains srv ->
        not_allowed c (server_domains srv) (d +:+ rest) = false
        /\ (is_local_locator w (d +:+ rest) = false ->
            trace (fetch_docs c w srv (d +:+ rest))
              = [EvExists (d +:+ rest); EvHttpGet (d +:+ rest)]))
  /\ (forall redirects timeout kwargs,
        FastMCP c kwargs = Ret tt ->
        exists srv,
          result (create_server c w [] redirects timeout (Some kwargs)
                                (Some ["https://a.com"])) = Ret srv
          /\ server_domains srv = {["https://a.com"]}
          /\ ends_with_slash "https://a.com" = false
          /\ not_allowed c (server_domains srv) "https://a.com.evil.example/x"
             = false).
Proof.
  split; [|split; [|split]].
  - intros sources d Hd.
    apply remote_origins_elem in Hd as (entry & parsed & Hin & _ & Hparse & ->).
    split; [apply origin_slash|]. exists entry, parsed. auto.
  - intros sources redirects timeout settings extra srv Hrun Hsome Hstar.
    destruct (create_server_ret_inv c w sources redirects timeout settings
                (Some extra) srv Hrun) as (kwargs & _ & _ & _ & ->).
    cbn [created server_domains]. unfold allowed_domain_set. cbn [default].
    rewrite (bool_decide_eq_false_2 _ Hstar), (bool_decide_eq_false_2 _ Hsome).
    rewrite andb_false_r.
    split; intros x; rewrite elem_of_union, elem_of_list_to_set; tauto.
  - intros srv d rest Hd.
    pose proof (not_allowed_extension c (server_domains srv) d rest Hd) as Hpass.
    split; [exact Hpass|].
    intros Hremote. unfold is_local_locator in Hremote.
    apply orb_false_iff in Hremote as [Hscheme Hprobe].
    rewrite (fetch_docs_remote c w srv (d +:+ rest) Hscheme Hprobe), Hpass.
    simpl. now rewrite http_fetch_trace.
  - intros redirects timeout kwargs Hctor.
    eexists. split.
    { rewrite (create_server_spec c w [] redirects timeout kwargs
                 (Some ["https://a.com"]) Hctor eq_refl). reflexivity. }
    cbn [created server_domains].
    assert (allowed_domain_set c w [] (Some ["https://a.com"])
            = {["https://a.com"]}) as ->.
    { unfold allowed_domain_set, remote_origins. simpl.
      now rewrite (left_id_L ∅ (∪)), (right_id_L ∅ (∪)). }
    split; [reflexivity|]. split; [reflexivity|].
    apply (not_allowed_extension c {["https://a.com"]} "https://a.com"
             ".evil.example/x").
    now apply elem_of_singleton.
Qed.

Lemma allowlist_admits_extensions_of_extra_domains_witness :
  (exists srv : Server,
      result (create_server Sample.collab (Sample.world [] Sample.echo) []
                false 10 (Some ∅) (Some ["https://a.com"])) = Ret srv
      /\ trace (fetch_docs Sample.collab (Sample.world [] Sample.echo) srv
                           ("https://a.com" +:+ ".evil.example/x"))
         = [EvExists "https://a.com.evil.example/x";
            EvHttpGet "https://a.com.evil.example/x"])
  /\ "https://a.com"
       ∈ server_domains
           (created Sample.collab (Sample.world [] Sample.echo)
              [Sample.source None "https://docs.example.com/llms.txt"]
              false 10 (Some ["https://a.com"])).
Proof.
  destruct (allowlist_admits_extensions_of_extra_domains Sample.collab
              (Sample.world [] Sample.echo)) as (_ & Hextra & Hext & Hex).
  split.
  - destruct (Hex false 10%Q ∅ eq_refl) as (srv & Hrun & Hset & _).
    exists srv. split; [exact Hrun|].
    destruct (Hext srv "https://a.com" ".evil.example/x") as [_ Htrace].
    + rewrite Hset. now apply elem_of_singleton.
    + apply Htrace. reflexivity.
  - destruct (Hextra [Sample.source None "https://docs.example.com/llms.txt"]
                false 10%Q (Some ∅) ["https://a.com"]
                (created Sample.collab (Sample.world [] Sample.echo)
                   [Sample.source None "https://docs.example.com/llms.txt"]
                   false 10 (Some ["https://a.com"])))
      as [Hverbatim _].
    + reflexivity.
    + discriminate.
    + intros H. apply list_elem_of_In in H. destruct H as [H|[]].
      discriminate H.
    + apply Hverbatim. left.
Defined.

(** ** Claims about [list_doc_sources] *)

Lemma list_entry_spec (c : Collab) (w : World) (entry : DocSource)
    (content : string) :
  list_entry c w entry content
  = ((if Py.startswith (llms_txt entry) "file://" then []
      else [EvExists (llms_txt entry)]),
     match display_name c w entry with
     | Ret shown => Ret (content +:+ block_with shown w entry)
     | Raise e => Raise e
     end).
Proof.
  unfold list_entry. rewrite bind_is_local.
  unfold display_name, block_with, locator_label.
  destruct (is_local_locator w (llms_txt entry)).
  - unfold ret, trace, result. cbn [fst snd]. rewrite app_nil_r.
    destruct (get_name entry); cbn [Py.or_else];
      now rewrite !append_assoc.
  - destruct (get_name entry) as [|ch configured]; cbn [or_else_do].
    + unfold extract_domain.
      destruct (urlparse c (llms_txt entry)) as [parsed|e].
      * rewrite bind_lift_ret. unfold ret, trace, result. cbn [fst snd].
        now rewrite app_nil_r, !append_assoc.
      * rewrite bind_lift_raise. cbn [trace result fst snd].
        now rewrite app_nil_r.
    + unfold bind, ret, trace, result. cbn [fst snd app].
      now rewrite app_nil_r, !append_assoc.
Qed.

(** The loop prints the blocks in order and stops, after its probe, at the
    first entry whose name cannot be computed. *)
Lemma list_doc_sources_loop_spec (c : Collab) (w : World)
    (entries : list DocSource) (content : string) :
  list_doc_sources_loop c w entries content
  = (probes_until (fun entry => negb (name_resolves c w entry)) entries,
     match listing c w entries with
     | Ret blocks => Ret (content +:+ blocks)
     | Raise e => Raise e
     end).
Proof.
  revert content. induction entries as [|entry rest IH]; intros content.
  - cbn. now rewrite append_nil_r.
  - cbn [list_doc_sources_loop probes_until]. rewrite list_entry_spec.
    unfold listing, name_resolves in *. cbn [listing_with].
    destruct (display_name c w entry) as [shown|e]; cbn [returns negb].
    + unfold bind. rewrite IH.
      destruct (listing_with (display_name c w) w rest) as [blocks|e];
        [now rewrite append_assoc | reflexivity].
    + unfold bind. now rewrite app_nil_r.
Qed.

Lemma list_doc_sources_run (c : Collab) (w : World) (srv : Server) :
  list_doc_sources c w srv
  = (probes_until (fun entry => negb (name_resolves c w entry))
                  (server_sources srv),
     listing c w (server_sources srv)).
Proof.
  unfold list_doc_sources. rewrite list_doc_sources_loop_spec.
  now destruct (listing c w (server_sources srv)).
Qed.

(** When every name can be computed the listing is a string. *)
Lemma listing_returns (c : Collab) (w : World) (sources : list DocSource) :
  forallb (name_resolves c w) sources = true ->
  exists blocks, listing c w sources = Ret blocks.
Proof.
  unfold listing, name_resolves.
  induction sources as [|entry rest IH]; cbn [forallb listing_with].
  - now exists "".
  - intros H. apply andb_true_iff in H as [Hname Hrest].
    destruct (display_name c w entry) as [shown|e]; [|discriminate Hname].
    destruct (IH Hrest) as (blocks & ->). eauto.
Qed.

Lemma name_resolves_iff (c : Collab) (w : World) (entry : DocSource) :
  name_resolves c w entry = true <->
  (get_name entry = "" ->
   is_local_locator w (llms_txt entry) = false ->
   returns (urlparse c (llms_txt entry)) = true).
Proof.
  unfold name_resolves, display_name.
  destruct (get_name entry) as [|ch configured].
  - destruct (is_local_locator w (llms_txt entry)).
    + split; [discriminate | reflexivity].
    + destruct (urlparse c (llms_txt entry)); cbn; split; auto.
  - split; [discriminate | reflexivity].
Qed.

Lemma or_else_nonempty (a b : string) : a <> "" -> Py.or_else a b = a.
Proof. now destruct a. Qed.

Lemma replace_from_absent (old new s : string) :
  Py.occurs old s = false -> Py.replace_from old new 0 s = s.
Proof.
  induction s as [|ch s IH]; [reflexivity|].
  cbn [Py.occurs Py.replace_from]. intros H.
  apply orb_false_iff in H as [-> H]. now rewrite (IH H).
Qed.

Lemma replace_from_match (old new : string) (ch : ascii) (rest : string) :
  String.prefix old (String ch rest) = true ->
  Py.replace_from old new 0 (String ch rest)
  = new +:+ Py.replace_from old new (String.length old - 1) rest.
Proof. cbn [Py.replace_from]. now intros ->. Qed.

Lemma replace_from_skip (old new : string) (k : nat) (ch : ascii)
    (rest : string) :
  Py.replace_from old new (S k) (String ch rest)
  = Py.replace_from old new k rest.
Proof. reflexivity. Qed.

Lemma replace_file_prefix (rest : string) :
  Py.replace ("file://" +:+ rest) "file://" ""
  = Py.replace rest "file://" "".
Proof.
  unfold Py.replace.
  pose proof (startswith_app "file://" rest) as Hscheme.
  unfold Py.startswith in Hscheme.
  rewrite !append_cons, append_nil in *.
  rewrite replace_from_match by exact Hscheme.
  cbn [String.length Nat.sub]. now rewrite !replace_from_skip, append_nil.
Qed.

(** Removing every [file://] leaves the path, when the path has none. *)
Lemma replace_local_path (locator : string) :
  Py.occurs "file://" (local_path locator) = false ->
  Py.replace locator "file://" "" = local_path locator.
Proof.
  unfold local_path.
  destruct (Py.startswith locator "file://") eqn:Hscheme; intros Habsent.
  - rewrite (slice_file_prefix locator Hscheme) at 1.
    rewrite replace_file_prefix. now apply replace_from_absent.
  - now apply replace_from_absent.
Qed.

(** C7, as the code has it.  What [list_doc_sources] returns is the blocks
    of the sources in configured order, nothing for no source; it does
    return whenever [urlparse] accepts the locator of every remote source
    that has no name, and then it has probed every source without the
    prefix.  A block is the display name, a line feed, [Path: ] (locator
    with the [file://] prefix or found on disk) or [URL: ] (otherwise)
    before the locator, and two line feeds.  The display name is the
    configured name when there is one and it is not empty; otherwise it is
    the origin [scheme://netloc/] for a remote locator and, for a local
    locator whose path contains no [file://], the base name of the path. *)
Theorem list_doc_sources_blocks (c : Collab) (w : World) (srv : Server) :
  result (list_doc_sources c w srv) = listing c w (server_sources srv)
  /\ ((forall entry, entry ∈ server_sources srv ->
         get_name entry = "" ->
         is_local_locator w (llms_txt entry) = false ->
         returns (urlparse c (llms_txt entry)) = true) ->
      exists blocks,
        list_doc_sources c w srv = (probes w (server_sources srv), Ret blocks))
  /\ (server_sources srv = [] -> list_doc_sources c w srv = ([], Ret ""))
  /\ (forall entry rest shown blocks,
        display_name c w entry = Ret shown ->
        listing c w rest = Ret blocks ->
        listing c w (entry :: rest)
        = Ret (shown +:+ Py.LF
               +:+ (if is_local_locator w (llms_txt entry)
                    then "Path: " else "URL: ")
               +:+ llms_txt entry +:+ Py.LF +:+ Py.LF +:+ blocks))
  /\ (forall entry configured,
        name entry = Some configured -> configured <> "" ->
        display_name c w entry = Ret configured)
  /\ (forall entry,
        name entry = None \/ name entry = Some "" ->
        (is_local_locator w (llms_txt entry) = false ->
         forall parsed,
           urlparse c (llms_txt entry) = Ret parsed ->
           display_name c w entry
           = Ret (scheme parsed +:+ "://" +:+ netloc parsed +:+ "/"))
        /\ (is_local_locator w (llms_txt entry) = true ->
            Py.occurs "file://" (local_path (llms_txt entry)) = false ->
            display_name c w entry
            = Ret (Py.basename (local_path (llms_txt entry))))).
Proof.
  split; [now rewrite list_doc_sources_run|]. split; [|split; [|split; [|split]]].
  - intros Hparse. rewrite list_doc_sources_run.
    assert (forallb (name_resolves c w) (server_sources srv) = true) as Hnames.
    { apply forallb_forall. intros entry Hin. apply name_resolves_iff.
      apply Hparse. now apply list_elem_of_In. }
    destruct (listing_returns c w _ Hnames) as (blocks & ->).
    exists blocks. f_equal. apply probes_until_all.
    rewrite forallb_forall in *. intros entry Hin.
    now rewrite (Hnames entry Hin).
  - intros Hnone. rewrite list_doc_sources_run, Hnone. reflexivity.
  - intros entry rest shown blocks Hname Hrest.
    unfold listing in *. cbn [listing_with]. rewrite Hname, Hrest.
    unfold block_with, locator_label. now rewrite !append_assoc.
  - intros entry configured Hname Hne. unfold display_name, get_name.
    rewrite Hname. cbn [default]. now destruct configured.
  - intros entry Hname.
    assert (get_name entry = "") as Hget
      by (unfold get_name; now destruct Hname as [-> | ->]).
    unfold display_name. rewrite Hget.
    split; intros ->.
    + now intros parsed ->.
    + intros Habsent. now rewrite replace_local_path.
Qed.

Lemma list_doc_sources_blocks_witness :
  list_doc_sources Sample.collab
    (Sample.world [("docs/llms.txt", "# Guide")] Sample.echo)
    (Sample.server
       [Sample.source None "file:///srv/docs/llms.txt";
        Sample.source (Some "Guide") "docs/llms.txt";
        Sample.source (Some "") "https://a.com/llms.txt"]
       {["https://a.com/"]})
    = ([EvExists "docs/llms.txt"; EvExists "https://a.com/llms.txt"],
       Ret ("llms.txt" +:+ Py.LF +:+ "Path: file:///srv/docs/llms.txt"
            +:+ Py.LF +:+ Py.LF
            +:+ "Guide" +:+ Py.LF +:+ "Path: docs/llms.txt" +:+ Py.LF +:+ Py.LF
            +:+ "https://a.com/" +:+ Py.LF +:+ "URL: https://a.com/llms.txt"
            +:+ Py.LF +:+ Py.LF))
  /\ display_name Sample.collab
       (Sample.world [("docs/llms.txt", "# Guide")] Sample.echo)
       (Sample.source None "file:///srv/docs/llms.txt")
     = Ret "llms.txt".
Proof.
  destruct (list_doc_sources_blocks Sample.collab
              (Sample.world [("docs/llms.txt", "# Guide")] Sample.echo)
              (Sample.server
                 [Sample.source None "file:///srv/docs/llms.txt";
                  Sample.source (Some "Guide") "docs/llms.txt";
                  Sample.source (Some "") "https://a.com/llms.txt"]
                 {["https://a.com/"]}))
    as (Hrun & Hreturns & _ & _ & _ & Hdefault).
  split.
  - destruct Hreturns as (blocks & Hblocks).
    + intros entry Hin _ _. apply list_elem_of_In in Hin.
      destruct Hin as [<- | [<- | [<- | []]]]; reflexivity.
    + rewrite Hblocks in Hrun |- *. unfold result in Hrun. cbn [snd] in Hrun.
      rewrite Hrun. reflexivity.
  - destruct (Hdefault (Sample.source None "file:///srv/docs/llms.txt"))
      as [_ Hlocal]; [now left|].
    rewrite Hlocal; reflexivity.
Defined.

(** C7, as the specification words it, fails: a configured name that is
    the empty string is not printed; the origin is printed in its place. *)
Lemma list_doc_sources_empty_name_counterexample :
  result (list_doc_sources Sample.collab (Sample.world [] Sample.echo)
            (Sample.server [Sample.source (Some "") "https://a.com/llms.txt"] ∅))
    = Ret ("https://a.com/" +:+ Py.LF +:+ "URL: https://a.com/llms.txt"
           +:+ Py.LF +:+ Py.LF)
  /\ stated_listing Sample.collab (Sample.world [] Sample.echo)
       [Sample.source (Some "") "https://a.com/llms.txt"]
     = Ret ("" +:+ Py.LF +:+ "URL: https://a.com/llms.txt" +:+ Py.LF +:+ Py.LF)
  /\ ~ (forall (c : Collab) (w : World) (srv : Server),
          result (list_doc_sources c w srv)
          = stated_listing c w (server_sources srv)).
Proof.
  split; [reflexivity|]. split; [reflexivity|].
  intros Hstated.
  specialize (Hstated Sample.collab (Sample.world [] Sample.echo)
                (Sample.server [Sample.source (Some "") "https://a.com/llms.txt"] ∅)).
  vm_compute in Hstated. discriminate Hstated.
Qed.

(** * Further properties of the code *)

(** ** [fetch_docs]: outcomes of the remote branch *)

Lemma fetch_docs_allowed_remote (c : Collab) (w : World) (srv : Server)
    (url : string) :
  is_local_locator w url = false ->
  not_allowed c (server_domains srv) url = false ->
  fetch_docs c w srv url
  = ([EvExists url; EvHttpGet url], result (http_fetch c w srv url)).
Proof.
  unfold is_local_locator. intros Hlocal Hpass.
  apply orb_false_iff in Hlocal as [Hscheme Hprobe].
  rewrite (fetch_docs_remote c w srv url Hscheme Hprobe), Hpass.
  now rewrite http_fetch_trace.
Qed.

(** X1.  An exception leaves [fetch_docs] exactly when the locator is
    remote and admitted by the allowlist, and either the GET raises it or
    the response is a success and the converter raises it on the body, the
    exception being of neither httpx class. *)
Theorem fetch_docs_raises_iff (c : Collab) (w : World) (srv : Server)
    (url : string) (e : exn) :
  result (fetch_docs c w srv url) = Raise e <->
  is_local_locator w url = false
  /\ not_allowed c (server_domains srv) url = false
  /\ is_httpx_error e = false
  /\ (httpx_get w (server_client srv) (server_timeout srv) url = Raise e
      \/ exists response,
           httpx_get w (server_client srv) (server_timeout srv) url
             = Ret response
           /\ is_success response = true
           /\ markdownify c (text response) = Raise e).
Proof.
  split; [apply fetch_docs_raise_inv|].
  intros (Hlocal & Hpass & Hcls & Hwhere).
  rewrite (fetch_docs_allowed_remote c w srv url Hlocal Hpass).
  unfold http_fetch, try_except, bind, perform, lift, result, raise_for_status.
  destruct Hwhere as [Hget | (response & Hget & Hok & Hmd)]; rewrite Hget.
  - cbn. now rewrite Hcls.
  - cbn. rewrite Hok. cbn. rewrite Hmd. cbn. now rewrite Hcls.
Qed.

Lemma fetch_docs_raises_iff_witness :
  result (fetch_docs Sample.collab (Sample.world [] Sample.strict)
            (Sample.server [] {["http://example.com"]})
            "http://example.com:abc/")
  = Raise (Exn (OtherException "httpx.InvalidURL") "Invalid port: 'abc'").
Proof.
  apply fetch_docs_raises_iff.
  split; [reflexivity|]. split; [|split; [reflexivity|now left]].
  apply not_allowed_false. right. exists "http://example.com".
  split; [simpl; now apply elem_of_singleton | reflexivity].
Defined.

(** X2.  On the remote branch, for a locator the allowlist admits: a GET
    that raises one of the two httpx classes gives the HTTP error string
    with the text of the exception; a response whose status is not a success
    gives the HTTP error string with the message of the status error, and
    the body is not converted (the converter has no part in the result); a
    successful response whose body converts gives the converted body. *)
Theorem fetch_docs_remote_outcomes (c : Collab) (w : World) (srv : Server)
    (url : string) :
  is_local_locator w url = false ->
  not_allowed c (server_domains srv) url = false ->
  (forall e,
      httpx_get w (server_client srv) (server_timeout srv) url = Raise e ->
      is_httpx_error e = true ->
      fetch_docs c w srv url
      = ([EvExists url; EvHttpGet url],
         Ret ("Encountered an HTTP error: " +:+ exn_str e)))
  /\ (forall response,
        httpx_get w (server_client srv) (server_timeout srv) url = Ret response ->
        is_success response = false ->
        fetch_docs c w srv url
        = ([EvExists url; EvHttpGet url],
           Ret ("Encountered an HTTP error: " +:+ status_error response)))
  /\ (forall response converted,
        httpx_get w (server_client srv) (server_timeout srv) url = Ret response ->
        is_success response = true ->
        markdownify c (text response) = Ret converted ->
        fetch_docs c w srv url
        = ([EvExists url; EvHttpGet url], Ret converted)).
Proof.
  intros Hlocal Hpass.
  rewrite (fetch_docs_allowed_remote c w srv url Hlocal Hpass).
  unfold http_fetch, try_except, bind, perform, lift, result, raise_for_status.
  split; [|split].
  - intros e -> Hcls. cbn. now rewrite Hcls.
  - intros response -> Hok. cbn. now rewrite Hok.
  - intros response converted -> Hok Hmd. cbn. rewrite Hok. cbn.
    now rewrite Hmd.
Qed.

Lemma fetch_docs_remote_outcomes_witness :
  fetch_docs (Sample.collab_with Sample.failing_converter)
             (Sample.world [] Sample.not_found)
             (Sample.server [] {["https://a.com/"]}) "https://a.com/gone"
  = ([EvExists "https://a.com/gone"; EvHttpGet "https://a.com/gone"],
     Ret "Encountered an HTTP error: Client error '404 Not Found' for url 'https://a.com/gone'")
  /\ fetch_docs Sample.collab (Sample.world [] Sample.unreachable)
                (Sample.server [] {["https://a.com/"]}) "https://a.com/page"
     = ([EvExists "https://a.com/page"; EvHttpGet "https://a.com/page"],
        Ret "Encountered an HTTP error: All connection attempts failed").
Proof.
  split.
  - destruct (fetch_docs_remote_outcomes
                (Sample.collab_with Sample.failing_converter)
                (Sample.world [] Sample.not_found)
                (Sample.server [] {["https://a.com/"]}) "https://a.com/gone")
      as (_ & Hstatus & _).
    + reflexivity.
    + apply not_allowed_false. right. exists "https://a.com/".
      split; [simpl; now apply elem_of_singleton | reflexivity].
    + exact (Hstatus _ eq_refl eq_refl).
  - destruct (fetch_docs_remote_outcomes Sample.collab
                (Sample.world [] Sample.unreachable)
                (Sample.server [] {["https://a.com/"]}) "https://a.com/page")
      as (Hraise & _).
    + reflexivity.
    + apply not_allowed_false. right. exists "https://a.com/".
      split; [simpl; now apply elem_of_singleton | reflexivity].
    + exact (Hraise _ eq_refl eq_refl).
Defined.

(** X3.  Whatever the locator, the world and the server, one call of
    [fetch_docs] touches the outside world in one of four ways: one read
    (prefixed locator); a probe and one read of the probed path; a probe
    alone (rejection); a probe and one GET of the locator itself.  It never
    reads a file and issues a request in the same call, and never requests
    a URL other than the one it was given. *)
Theorem fetch_docs_effects (c : Collab) (w : World) (srv : Server)
    (url : string) :
  (trace (fetch_docs c w srv url) = [EvOpen (Py.slice_from 7 url)]
   /\ Py.startswith url "file://" = true)
  \/ (trace (fetch_docs c w srv url) = [EvExists url; EvOpen url]
      /\ Py.startswith url "file://" = false
      /\ os_path_exists w url = true)
  \/ (trace (fetch_docs c w srv url) = [EvExists url]
      /\ is_local_locator w url = false
      /\ not_allowed c (server_domains srv) url = true)
  \/ (trace (fetch_docs c w srv url) = [EvExists url; EvHttpGet url]
      /\ is_local_locator w url = false
      /\ not_allowed c (server_domains srv) url = false).
Proof.
  unfold is_local_locator.
  destruct (Py.startswith url "file://") eqn:Hscheme.
  - left. now rewrite fetch_docs_file, read_local_spec.
  - right. destruct (os_path_exists w url) eqn:Hprobe.
    + left. now rewrite fetch_docs_path.
    + right. rewrite (fetch_docs_remote c w srv url Hscheme Hprobe).
      destruct (not_allowed c (server_domains srv) url); [now left|right].
      cbn. now rewrite http_fetch_trace.
Qed.

(** ** [create_server]: the allowed set of a returned server *)

Lemma star_not_origin (c : Collab) (w : World) (sources : list DocSource) :
  "*" ∉ remote_origins c w sources.
Proof.
  intros H. apply remote_origins_elem in H as (entry & parsed & _ & _ & _ & H).
  pose proof (origin_slash parsed) as Hslash.
  rewrite <- H in Hslash. discriminate Hslash.
Qed.

Lemma has_local_source_true (w : World) (sources : list DocSource) :
  has_local_source w sources = true <->
  exists entry, entry ∈ sources /\ is_local_locator w (llms_txt entry) = true.
Proof.
  unfold has_local_source. rewrite existsb_exists.
  split; intros (entry & Hin & H); exists entry; split; try exact H;
    now apply list_elem_of_In.
Qed.

Lemma has_local_source_false (w : World) (sources : list DocSource) :
  has_local_source w sources = false <->
  forall entry, entry ∈ sources -> is_local_locator w (llms_txt entry) = false.
Proof.
  split.
  - intros H entry Hin.
    destruct (is_local_locator w (llms_txt entry)) eqn:E; [|reflexivity].
    assert (has_local_source w sources = true) as H'
      by (apply has_local_source_true; eauto).
    congruence.
  - intros H. destruct (has_local_source w sources) eqn:E; [|reflexivity].
    apply has_local_source_true in E as (entry & Hin & E).
    rewrite (H entry Hin) in E. discriminate E.
Qed.

Lemma remote_origins_all_local (c : Collab) (w : World)
    (sources : list DocSource) :
  (forall entry, entry ∈ sources ->
                 is_local_locator w (llms_txt entry) = true) ->
  remote_origins c w sources = ∅.
Proof.
  intros Hall. apply leibniz_equiv, elem_of_equiv_empty. intros d Hd.
  apply remote_origins_elem in Hd as (entry & parsed & Hin & E & _).
  rewrite (Hall entry Hin) in E. discriminate E.
Qed.

Lemma remote_origins_nonempty (c : Collab) (w : World)
    (sources : list DocSource) (entry : DocSource) (parsed : ParseResult) :
  entry ∈ sources ->
  is_local_locator w (llms_txt entry) = false ->
  urlparse c (llms_txt entry) = Ret parsed ->
  remote_origins c w sources <> ∅.
Proof.
  intros Hin Hremote Hparse Hnone.
  assert (scheme parsed +:+ "://" +:+ netloc parsed +:+ "/"
            ∈ remote_origins c w sources) as Hd
    by (apply remote_origins_elem; eauto 6).
  rewrite Hnone in Hd. now apply not_elem_of_empty in Hd.
Qed.

Lemma all_local_parse (c : Collab) (w : World) (sources : list DocSource) :
  (forall entry, entry ∈ sources ->
                 is_local_locator w (llms_txt entry) = true) ->
  remote_sources_parse c w sources = true.
Proof.
  intros Hall. apply forallb_forall. intros entry Hin.
  unfold source_parses. rewrite Hall; [reflexivity|].
  now apply list_elem_of_In.
Qed.

Lemma remote_source_parsed (c : Collab) (w : World) (sources : list DocSource)
    (entry : DocSource) :
  remote_sources_parse c w sources = true ->
  entry ∈ sources ->
  is_local_locator w (llms_txt entry) = false ->
  exists parsed, urlparse c (llms_txt entry) = Ret parsed.
Proof.
  intros Hparse Hin Hremote. unfold remote_sources_parse in Hparse.
  rewrite forallb_forall in Hparse.
  apply list_elem_of_In in Hin. specialize (Hparse entry Hin).
  unfold source_parses in Hparse. rewrite Hremote in Hparse.
  destruct (urlparse c (llms_txt entry)) as [parsed|e];
    [now exists parsed | discriminate Hparse].
Qed.

Lemma set_iter_empty (c : Collab) : set_iter c ∅ = [].
Proof.
  apply Permutation_nil_r. now rewrite (set_iter_perm c ∅), elements_empty.
Qed.

Lemma allowed_domain_set_no_extra (c : Collab) (w : World)
    (sources : list DocSource) (extra_domains : option (list string)) :
  extra_domains = None \/ extra_domains = Some [] ->
  allowed_domain_set c w sources extra_domains
  = if has_local_source w sources
       && bool_decide (remote_origins c w sources = ∅)
    then {["*"]} else remote_origins c w sources.
Proof.
  unfold allowed_domain_set. intros [-> | ->]; simpl;
    now rewrite andb_true_r, (right_id_L ∅ (∪)).
Qed.

(** The allowed set is the sentinel alone, or does not hold the sentinel. *)
Lemma allowed_domain_set_sentinel (c : Collab) (w : World)
    (sources : list DocSource) (extra_domains : option (list string)) :
  allowed_domain_set c w sources extra_domains = {["*"]}
  \/ "*" ∉ allowed_domain_set c w sources extra_domains.
Proof.
  unfold allowed_domain_set.
  destruct (bool_decide ("*" ∈ default [] extra_domains)) eqn:Hstar;
    [now left|].
  destruct (_ && _ && _); [now left|right].
  apply bool_decide_eq_false in Hstar.
  rewrite elem_of_union, elem_of_list_to_set.
  intros [H|H]; [now apply star_not_origin in H | now apply Hstar].
Qed.

(** X4.  In a server that [create_server] has returned the allowed set
    either is the sentinel alone or does not contain ["*"]: no origin of a
    source is ["*"], and a ["*"] among the extra domains replaces
    everything else.  So the test of [fetch_docs] either admits every
    locator or is a pure prefix test. *)
Theorem created_server_sentinel_or_prefixes (c : Collab) (w : World)
    (doc_source : list DocSource) (redirects : bool) (timeout : Q)
    (settings : option (gmap string pyval))
    (extra_domains : option (list string)) (srv : Server) :
  result (create_server c w doc_source redirects timeout settings
                        extra_domains) = Ret srv ->
  (server_domains srv = {["*"]}
   /\ forall url, not_allowed c (server_domains srv) url = false)
  \/ (("*" ∉ server_domains srv)
      /\ forall url,
           not_allowed c (server_domains srv) url = false <->
           exists d, d ∈ server_domains srv /\ Py.startswith url d = true).
Proof.
  intros Hrun.
  destruct (create_server_ret_inv c w doc_source redirects timeout settings
              extra_domains srv Hrun) as (kwargs & _ & _ & _ & ->).
  cbn [created server_domains].
  destruct (allowed_domain_set_sentinel c w doc_source extra_domains)
    as [-> | Hstar].
  - left. split; [reflexivity|]. intros url.
    apply not_allowed_false. left. now apply elem_of_singleton.
  - right. split; [exact Hstar|]. intros url.
    rewrite not_allowed_false. tauto.
Qed.

Lemma created_server_sentinel_or_prefixes_witness :
  result (create_server Sample.collab
            (Sample.world [("notes.md", "# Notes")] Sample.echo)
            [Sample.source None "notes.md";
             Sample.source None "https://a.com/llms.txt"]
            false 10 (Some ∅) None)
  = Ret (created Sample.collab
           (Sample.world [("notes.md", "# Notes")] Sample.echo)
           [Sample.source None "notes.md";
            Sample.source None "https://a.com/llms.txt"] false 10 None)
  /\ "*" ∉ server_domains
             (created Sample.collab
                (Sample.world [("notes.md", "# Notes")] Sample.echo)
                [Sample.source None "notes.md";
                 Sample.source None "https://a.com/llms.txt"] false 10 None).
Proof.
  split; [reflexivity|].
  destruct (created_server_sentinel_or_prefixes Sample.collab
              (Sample.world [("notes.md", "# Notes")] Sample.echo)
              [Sample.source None "notes.md";
               Sample.source None "https://a.com/llms.txt"]
              false 10 (Some ∅) None _ eq_refl) as [[Hall _] | [Hstar _]];
    [|exact Hstar].
  vm_compute in Hall. discriminate Hall.
Defined.

(** X5.  When every configured source is local, there is at least one, and
    no extra domain is given, the created server admits every remote
    locator: whatever the locator, [fetch_docs] goes on to the GET. *)
Theorem local_only_server_admits_every_url (c : Collab) (w : World)
    (doc_source : list DocSource) (redirects : bool) (timeout : Q)
    (kwargs : gmap string pyval) (extra_domains : option (list string)) :
  FastMCP c kwargs = Ret tt ->
  doc_source <> [] ->
  (forall entry, entry ∈ doc_source ->
                 is_local_locator w (llms_txt entry) = true) ->
  extra_domains = None \/ extra_domains = Some [] ->
  exists srv : Server,
    result (create_server c w doc_source redirects timeout (Some kwargs)
                          extra_domains) = Ret srv
    /\ server_domains srv = {["*"]}
    /\ forall (w' : World) (url : string),
         is_local_locator w' url = false ->
         trace (fetch_docs c w' srv url) = [EvExists url; EvHttpGet url].
Proof.
  intros Hctor Hsome Hlocal Hextra. eexists. split.
  { rewrite (create_server_spec c w doc_source redirects timeout kwargs
               extra_domains Hctor (all_local_parse c w doc_source Hlocal)).
    reflexivity. }
  cbn [created server_domains].
  assert (allowed_domain_set c w doc_source extra_domains = {["*"]}) as Hset.
  { rewrite (allowed_domain_set_no_extra c w doc_source extra_domains Hextra).
    assert (has_local_source w doc_source = true) as ->.
    { destruct doc_source as [|entry rest]; [now destruct Hsome|].
      apply has_local_source_true. exists entry.
      split; [left | apply Hlocal; left]. }
    rewrite bool_decide_eq_true_2; [reflexivity|].
    now apply remote_origins_all_local. }
  split; [exact Hset|]. intros w' url Hremote.
  rewrite fetch_docs_allowed_remote; [reflexivity | exact Hremote |].
  cbn [created server_domains]. rewrite Hset.
  apply not_allowed_false. left. now apply elem_of_singleton.
Qed.

Lemma local_only_server_admits_every_url_witness :
  exists srv : Server,
    result (create_server Sample.collab
              (Sample.world [("notes.md", "# Notes")] Sample.echo)
              [Sample.source None "notes.md";
               Sample.source None "file:///srv/llms.txt"]
              false 10 (Some ∅) None) = Ret srv
    /\ trace (fetch_docs Sample.collab (Sample.world [] Sample.echo) srv
                         "https://anywhere.example/x")
       = [EvExists "https://anywhere.example/x";
          EvHttpGet "https://anywhere.example/x"].
Proof.
  destruct (local_only_server_admits_every_url Sample.collab
              (Sample.world [("notes.md", "# Notes")] Sample.echo)
              [Sample.source None "notes.md";
               Sample.source None "file:///srv/llms.txt"]
              false 10 ∅ None eq_refl) as (srv & Hrun & _ & Hall).
  - discriminate.
  - intros entry Hin. apply list_elem_of_In in Hin.
    destruct Hin as [<- | [<- | []]]; reflexivity.
  - now left.
  - exists srv. split; [exact Hrun|]. apply Hall. reflexivity.
Defined.

(** X6.  In a returned server, as soon as one source is remote and no
    extra domain is given, local sources do not widen the allowed set: it
    is exactly the set of the origins of the remote sources, ["*"] is not
    in it, and a locator is admitted only if it starts with the origin
    [scheme://netloc/] of a remote source. *)
Theorem remote_source_keeps_allowlist_closed (c : Collab) (w : World)
    (doc_source : list DocSource) (redirects : bool) (timeout : Q)
    (settings : option (gmap string pyval))
    (extra_domains : option (list string)) (srv : Server) :
  result (create_server c w doc_source redirects timeout settings
                        extra_domains) = Ret srv ->
  (exists entry, entry ∈ doc_source
                 /\ is_local_locator w (llms_txt entry) = false) ->
  extra_domains = None \/ extra_domains = Some [] ->
  server_domains srv = remote_origins c w doc_source
  /\ ("*" ∉ server_domains srv)
  /\ forall url,
       not_allowed c (server_domains srv) url = false <->
       exists entry parsed,
         entry ∈ doc_source
         /\ is_local_locator w (llms_txt entry) = false
         /\ urlparse c (llms_txt entry) = Ret parsed
         /\ Py.startswith url
              (scheme parsed +:+ "://" +:+ netloc parsed +:+ "/") = true.
Proof.
  intros Hrun (remote & Hin & Hremote) Hextra.
  destruct (create_server_ret_inv c w doc_source redirects timeout settings
              extra_domains srv Hrun) as (kwargs & _ & _ & Hparse & ->).
  cbn [created server_domains].
  destruct (remote_source_parsed c w doc_source remote Hparse Hin Hremote)
    as (parsed & Hparsed).
  assert (allowed_domain_set c w doc_source extra_domains
          = remote_origins c w doc_source) as ->.
  { rewrite (allowed_domain_set_no_extra c w doc_source extra_domains Hextra).
    rewrite bool_decide_eq_false_2; [now rewrite andb_false_r|].
    exact (remote_origins_nonempty c w doc_source remote parsed Hin Hremote
             Hparsed). }
  split; [reflexivity|]. split; [apply star_not_origin|].
  intros url. rewrite not_allowed_false. split.
  - intros [Hstar | (d & Hd & Hpre)]; [now apply star_not_origin in Hstar|].
    apply remote_origins_elem in Hd as (entry & p & He & Hr & Hp & ->).
    exists entry, p. auto.
  - intros (entry & p & He & Hr & Hp & Hpre). right.
    exists (scheme p +:+ "://" +:+ netloc p +:+ "/"). split; [|exact Hpre].
    apply remote_origins_elem. exists entry, p. auto.
Qed.

Lemma remote_source_keeps_allowlist_closed_witness :
  server_domains
    (created Sample.collab
       (Sample.world [("notes.md", "# Notes")] Sample.echo)
       [Sample.source None "notes.md";
        Sample.source None "https://a.com/llms.txt"] false 10 None)
  = {["https://a.com/"]}.
Proof.
  destruct (remote_source_keeps_allowlist_closed Sample.collab
              (Sample.world [("notes.md", "# Notes")] Sample.echo)
              [Sample.source None "notes.md";
               Sample.source None "https://a.com/llms.txt"]
              false 10 (Some ∅) None
              (created Sample.collab
                 (Sample.world [("notes.md", "# Notes")] Sample.echo)
                 [Sample.source None "notes.md";
                  Sample.source None "https://a.com/llms.txt"] false 10 None)
              eq_refl) as (Hset & _).
  - exists (Sample.source None "https://a.com/llms.txt").
    split; [|reflexivity]. right. left.
  - now left.
  - rewrite Hset. vm_compute. reflexivity.
Defined.

(** X7.  Whatever extra domains are given, a returned server admits every
    locator that starts with the origin [scheme://netloc/] of one of its
    remote sources: the domain that hosts a configured source is always
    allowed. *)
Theorem remote_source_origin_is_admitted (c : Collab) (w : World)
    (doc_source : list DocSource) (redirects : bool) (timeout : Q)
    (settings : option (gmap string pyval))
    (extra_domains : option (list string)) (srv : Server)
    (entry : DocSource) :
  result (create_server c w doc_source redirects timeout settings
                        extra_domains) = Ret srv ->
  entry ∈ doc_source ->
  is_local_locator w (llms_txt entry) = false ->
  exists parsed,
    urlparse c (llms_txt entry) = Ret parsed
    /\ forall rest,
         not_allowed c (server_domains srv)
           ((scheme parsed +:+ "://" +:+ netloc parsed +:+ "/") +:+ rest)
         = false.
Proof.
  intros Hrun Hin Hremote.
  destruct (create_server_ret_inv c w doc_source redirects timeout settings
              extra_domains srv Hrun) as (kwargs & _ & _ & Hparse & ->).
  destruct (remote_source_parsed c w doc_source entry Hparse Hin Hremote)
    as (parsed & Hparsed).
  exists parsed. split; [exact Hparsed|].
  cbn [created server_domains]. intros rest.
  destruct (allowed_domain_set_sentinel c w doc_source extra_domains)
    as [-> | Hstar].
  { apply not_allowed_false. left. now apply elem_of_singleton. }
  apply not_allowed_extension.
  unfold allowed_domain_set in *.
  destruct (bool_decide ("*" ∈ default [] extra_domains));
    [exfalso; apply Hstar; now apply elem_of_singleton|].
  destruct (_ && _ && _);
    [exfalso; apply Hstar; now apply elem_of_singleton|].
  apply elem_of_union. left. apply remote_origins_elem.
  exists entry, parsed. auto.
Qed.

Lemma remote_source_origin_is_admitted_witness :
  not_allowed Sample.collab
    (server_domains
       (created Sample.collab (Sample.world [] Sample.echo)
          [Sample.source None "https://a.com/llms.txt"] false 10
          (Some ["https://b.org/"])))
    ("https://a.com/" +:+ "guide/intro.md") = false.
Proof.
  destruct (remote_source_origin_is_admitted Sample.collab
              (Sample.world [] Sample.echo)
              [Sample.source None "https://a.com/llms.txt"]
              false 10 (Some ∅) (Some ["https://b.org/"])
              (created Sample.collab (Sample.world [] Sample.echo)
                 [Sample.source None "https://a.com/llms.txt"] false 10
                 (Some ["https://b.org/"]))
              (Sample.source None "https://a.com/llms.txt") eq_refl)
    as (parsed & Hparsed & Hall).
  - left.
  - reflexivity.
  - injection Hparsed as <-. exact (Hall "guide/intro.md").
Defined.

Lemma startswith_longer (s : string) : Py.startswith s (s +:+ "/") = false.
Proof.
  unfold Py.startswith. induction s as [|ch s IH]; [reflexivity|].
  rewrite append_cons, prefix_cons.
  now destruct (Ascii.ascii_dec ch ch).
Qed.

(** X8.  A remote source whose locator is the bare [scheme://netloc],
    with no path, is not admitted by its own origin, because the origin has
    one more character, the final slash.  Configured alone, such a source
    cannot be fetched: [fetch_docs] rejects its locator. *)
Theorem source_without_path_is_rejected (c : Collab) (w : World)
    (entry : DocSource) (redirects : bool) (timeout : Q)
    (kwargs : gmap string pyval) (parsed : ParseResult) :
  FastMCP c kwargs = Ret tt ->
  is_local_locator w (llms_txt entry) = false ->
  urlparse c (llms_txt entry) = Ret parsed ->
  llms_txt entry = scheme parsed +:+ "://" +:+ netloc parsed ->
  exists srv : Server,
    result (create_server c w [entry] redirects timeout (Some kwargs) None)
      = Ret srv
    /\ server_domains srv = {[llms_txt entry +:+ "/"]}
    /\ fetch_docs c w srv (llms_txt entry)
       = ([EvExists (llms_txt entry)],
          Ret ("Error: URL not allowed. Must start with one of the following domains: "
               +:+ (llms_txt entry +:+ "/"))).
Proof.
  intros Hctor Hremote Hparsed Hbare.
  assert (origin_of c (llms_txt entry) = Some (llms_txt entry +:+ "/"))
    as Horigin.
  { destruct (extract_domain_ret c _ parsed Hparsed) as [_ ->].
    f_equal. rewrite Hbare at 1. now rewrite !append_assoc. }
  assert (remote_sources_parse c w [entry] = true) as Hparse.
  { unfold remote_sources_parse, source_parses. cbn [forallb].
    now rewrite Hremote, Hparsed. }
  eexists. split.
  { rewrite (create_server_spec c w [entry] redirects timeout kwargs None
               Hctor Hparse). reflexivity. }
  cbn [created server_domains].
  assert (allowed_domain_set c w [entry] None = {[llms_txt entry +:+ "/"]})
    as Hset.
  { unfold allowed_domain_set.
    rewrite (remote_origins_cons_remote c w entry [] _ Hremote Horigin).
    rewrite has_local_source_cons, Hremote. cbn [orb andb default].
    rewrite bool_decide_eq_false_2 by (intros H; inversion H).
    unfold has_local_source, remote_origins. cbn.
    now rewrite !(right_id_L ∅ (∪)). }
  split; [exact Hset|].
  unfold is_local_locator in Hremote.
  apply orb_false_iff in Hremote as [Hscheme Hprobe].
  rewrite (fetch_docs_remote c w _ (llms_txt entry) Hscheme Hprobe).
  cbn [created server_domains]. rewrite Hset.
  assert (not_allowed c {[llms_txt entry +:+ "/"]} (llms_txt entry) = true)
    as ->.
  { apply not_allowed_true. split.
    - intros H. apply elem_of_singleton in H.
      pose proof (ends_with_slash_app (llms_txt entry)) as Hslash.
      rewrite <- H in Hslash. discriminate Hslash.
    - intros d Hd. apply elem_of_singleton in Hd. subst d.
      apply startswith_longer. }
  unfold not_allowed_message. now rewrite set_iter_singleton.
Qed.

Lemma source_without_path_is_rejected_witness :
  exists srv : Server,
    result (create_server Sample.collab (Sample.world [] Sample.echo)
              [Sample.source None "https://a.com"] false 10 (Some ∅) None)
      = Ret srv
    /\ fetch_docs Sample.collab (Sample.world [] Sample.echo) srv
                  "https://a.com"
       = ([EvExists "https://a.com"],
          Ret "Error: URL not allowed. Must start with one of the following domains: https://a.com/").
Proof.
  destruct (source_without_path_is_rejected Sample.collab
              (Sample.world [] Sample.echo)
              (Sample.source None "https://a.com") false 10 ∅
              {| scheme := "https"; netloc := "a.com" |}
              eq_refl eq_refl eq_refl eq_refl) as (srv & Hrun & _ & Hfetch).
  exists srv. split; [exact Hrun | exact Hfetch].
Defined.

(** X9.  With no source and no extra domain the allowed set is empty, and
    the created server rejects every remote locator, listing no domain and
    issuing no request. *)
Theorem unconfigured_server_rejects_every_url (c : Collab) (w : World)
    (redirects : bool) (timeout : Q) (kwargs : gmap string pyval)
    (extra_domains : option (list string)) :
  FastMCP c kwargs = Ret tt ->
  extra_domains = None \/ extra_domains = Some [] ->
  exists srv : Server,
    result (create_server c w [] redirects timeout (Some kwargs)
                          extra_domains) = Ret srv
    /\ server_domains srv = ∅
    /\ forall (w' : World) (url : string),
         is_local_locator w' url = false ->
         fetch_docs c w' srv url
         = ([EvExists url],
            Ret "Error: URL not allowed. Must start with one of the following domains: ").
Proof.
  intros Hctor Hextra. eexists. split.
  { rewrite (create_server_spec c w [] redirects timeout kwargs
               extra_domains Hctor eq_refl). reflexivity. }
  cbn [created server_domains].
  assert (allowed_domain_set c w [] extra_domains = ∅) as Hset.
  { now rewrite (allowed_domain_set_no_extra c w [] extra_domains Hextra). }
  split; [exact Hset|]. intros w' url Hremote.
  unfold is_local_locator in Hremote.
  apply orb_false_iff in Hremote as [Hscheme Hprobe].
  rewrite (fetch_docs_remote c w' _ url Hscheme Hprobe).
  cbn [created server_domains]. rewrite Hset.
  assert (not_allowed c ∅ url = true) as ->.
  { apply not_allowed_true. split; [apply not_elem_of_empty|].
    intros d Hd. now apply not_elem_of_empty in Hd. }
  unfold not_allowed_message. now rewrite set_iter_empty.
Qed.

Lemma unconfigured_server_rejects_every_url_witness :
  exists srv : Server,
    result (create_server Sample.collab (Sample.world [] Sample.echo) []
              false 10 (Some ∅) None) = Ret srv
    /\ fetch_docs Sample.collab (Sample.world [] Sample.echo) srv
                  "https://a.com/page"
       = ([EvExists "https://a.com/page"],
          Ret "Error: URL not allowed. Must start with one of the following domains: ").
Proof.
  destruct (unconfigured_server_rejects_every_url Sample.collab
              (Sample.world [] Sample.echo) false 10 ∅ None eq_refl)
    as (srv & Hrun & _ & Hall); [now left|].
  exists srv. split; [exact Hrun|]. apply Hall. reflexivity.
Defined.

(** The loop stops at a remote source whose locator [urlparse] refuses:
    the sources after it are not probed. *)
Lemma scan_sources_stops (c : Collab) (w : World)
    (before after : list DocSource) (bad : DocSource) (e : exn)
    (domains : gset string) (has_local_files : bool) :
  remote_sources_parse c w before = true ->
  is_local_locator w (llms_txt bad) = false ->
  urlparse c (llms_txt bad) = Raise e ->
  scan_sources c w (before ++ bad :: after)%list domains has_local_files
  = ((probes w before ++ [EvExists (llms_txt bad)])%list, Raise e).
Proof.
  intros Hparse Hremote Hraise. revert domains has_local_files.
  induction before as [|entry rest IH]; intros domains has_local_files.
  - cbn [app scan_sources]. rewrite bind_is_local, Hremote.
    destruct (extract_domain_raise c _ e Hraise) as [-> _].
    rewrite bind_lift_raise. cbn [trace result fst snd].
    unfold is_local_locator in Hremote.
    apply orb_false_iff in Hremote as [-> _]. reflexivity.
  - rewrite remote_sources_parse_cons in Hparse.
    apply andb_true_iff in Hparse as [Hentry Hrest].
    change ((entry :: rest) ++ bad :: after)%list
      with (entry :: (rest ++ bad :: after)%list).
    cbn [scan_sources]. rewrite bind_is_local, probes_cons.
    unfold source_parses in Hentry.
    destruct (is_local_locator w (llms_txt entry)).
    + rewrite (IH Hrest). cbn [trace result fst snd].
      now rewrite <- app_assoc.
    + destruct (urlparse c (llms_txt entry)) as [parsed|e'] eqn:Hparsed;
        [|discriminate Hentry].
      destruct (extract_domain_ret c _ parsed Hparsed) as [-> _].
      rewrite bind_lift_ret, (IH Hrest). cbn [trace result fst snd].
      now rewrite <- app_assoc.
Qed.

(** X10.  Start-up touches the outside world only by probing the file
    system: [create_server] opens no file and issues no HTTP request.  When
    the constructor of the framework refuses the settings, its exception
    leaves [create_server] before any probe is made.  When it accepts them,
    the sources whose locator lacks the [file://] prefix are probed in
    order, all of them if [urlparse] accepts every remote locator;
    otherwise the exception of [urlparse] leaves [create_server] right
    after the probe of the first remote source it refuses, and the sources
    behind it are not probed. *)
Theorem create_server_effects (c : Collab) (w : World)
    (doc_source : list DocSource) (redirects : bool) (timeout : Q)
    (settings : option (gmap string pyval))
    (extra_domains : option (list string)) :
  (forall ev,
      ev ∈ trace (create_server c w doc_source redirects timeout settings
                                extra_domains) ->
      exists entry, entry ∈ doc_source
                    /\ Py.startswith (llms_txt entry) "file://" = false
                    /\ ev = EvExists (llms_txt entry))
  /\ (forall kwargs e,
        settings = Some kwargs -> FastMCP c kwargs = Raise e ->
        create_server c w doc_source redirects timeout settings extra_domains
        = ([], Raise e))
  /\ (forall kwargs,
        settings = Some kwargs -> FastMCP c kwargs = Ret tt ->
        remote_sources_parse c w doc_source = true ->
        trace (create_server c w doc_source redirects timeout settings
                             extra_domains) = probes w doc_source)
  /\ (forall kwargs before bad after e,
        settings = Some kwargs -> FastMCP c kwargs = Ret tt ->
        doc_source = (before ++ bad :: after)%list ->
        remote_sources_parse c w before = true ->
        is_local_locator w (llms_txt bad) = false ->
        urlparse c (llms_txt bad) = Raise e ->
        create_server c w doc_source redirects timeout settings extra_domains
        = ((probes w before ++ [EvExists (llms_txt bad)])%list, Raise e)).
Proof.
  split; [|split; [|split]].
  - intros ev. destruct settings as [kwargs|].
    + destruct (FastMCP c kwargs) as [[]|e] eqn:Hctor.
      * rewrite (create_server_accepted c w doc_source redirects timeout
                   kwargs extra_domains Hctor).
        unfold trace at 1. cbn [fst].
        destruct (scan_sources_spec c w doc_source ∅ false) as (-> & _).
        apply elem_of_probes_until.
      * unfold create_server, bind, lift. rewrite Hctor.
        intros H. inversion H.
    + intros H. inversion H.
  - intros kwargs e -> Hctor. unfold create_server, bind, lift.
    now rewrite Hctor.
  - intros kwargs -> Hctor Hparse.
    now rewrite (create_server_spec c w doc_source redirects timeout kwargs
                   extra_domains Hctor Hparse).
  - intros kwargs before bad after e -> Hctor -> Hparse Hremote Hraise.
    rewrite (create_server_accepted c w _ redirects timeout kwargs
               extra_domains Hctor).
    now rewrite (scan_sources_stops c w before after bad e ∅ false Hparse
                   Hremote Hraise).
Qed.

Lemma create_server_effects_witness :
  create_server Sample.collab (Sample.world [] Sample.echo)
    [Sample.source None "https://a.com/llms.txt";
     Sample.source None "http://[bad/llms.txt";
     Sample.source None "https://b.org/llms.txt"]
    false 10 (Some ∅) None
  = ([EvExists "https://a.com/llms.txt"; EvExists "http://[bad/llms.txt"],
     Raise (Exn (OtherException "ValueError") "Invalid IPv6 URL")).
Proof.
  destruct (create_server_effects Sample.collab (Sample.world [] Sample.echo)
              [Sample.source None "https://a.com/llms.txt";
               Sample.source None "http://[bad/llms.txt";
               Sample.source None "https://b.org/llms.txt"]
              false 10 (Some ∅) None) as (_ & _ & _ & Hstop).
  exact (Hstop ∅ [Sample.source None "https://a.com/llms.txt"]
           (Sample.source None "http://[bad/llms.txt")
           [Sample.source None "https://b.org/llms.txt"]
           (Exn (OtherException "ValueError") "Invalid IPv6 URL")
           eq_refl eq_refl eq_refl eq_refl eq_refl eq_refl).
Defined.

Lemma has_local_source_perm (w : World) (sources sources' : list DocSource) :
  sources ≡ₚ sources' ->
  has_local_source w sources = has_local_source w sources'.
Proof.
  intros Hperm.
  destruct (has_local_source w sources) eqn:E; symmetry.
  - apply has_local_source_true in E as (entry & Hin & E).
    apply has_local_source_true. exists entry.
    split; [now rewrite <- Hperm | exact E].
  - rewrite has_local_source_false in E. apply has_local_source_false.
    intros entry Hin. apply E. now rewrite Hperm.
Qed.

Lemma remote_origins_perm (c : Collab) (w : World)
    (sources sources' : list DocSource) :
  sources ≡ₚ sources' ->
  remote_origins c w sources = remote_origins c w sources'.
Proof.
  intros Hperm. apply set_eq. intros d. rewrite !remote_origins_elem.
  split; intros (entry & parsed & Hin & H); exists entry, parsed;
    split; try exact H.
  - now rewrite <- Hperm.
  - now rewrite Hperm.
Qed.

Lemma remote_sources_parse_perm (c : Collab) (w : World)
    (sources sources' : list DocSource) :
  sources ≡ₚ sources' ->
  remote_sources_parse c w sources = true ->
  remote_sources_parse c w sources' = true.
Proof.
  unfold remote_sources_parse. rewrite !forallb_forall.
  intros Hperm Hall entry Hin. apply Hall.
  apply list_elem_of_In. rewrite Hperm. now apply list_elem_of_In.
Qed.

(** X11.  The allowed set does not depend on the order in which the sources
    are configured: when [create_server] returns a server for a list of
    sources, it returns one for every reordering of the list, with the same
    allowed set. *)
Theorem allowed_set_ignores_source_order (c : Collab) (w : World)
    (sources sources' : list DocSource) (redirects : bool) (timeout : Q)
    (settings : option (gmap string pyval))
    (extra_domains : option (list string)) (srv : Server) :
  result (create_server c w sources redirects timeout settings
                        extra_domains) = Ret srv ->
  sources ≡ₚ sources' ->
  exists srv' : Server,
    result (create_server c w sources' redirects timeout settings
                          extra_domains) = Ret srv'
    /\ server_domains srv' = server_domains srv.
Proof.
  intros Hrun Hperm.
  destruct (create_server_ret_inv c w sources redirects timeout settings
              extra_domains srv Hrun) as (kwargs & -> & Hctor & Hparse & ->).
  exists (created c w sources' redirects timeout extra_domains). split.
  - now rewrite (create_server_spec c w sources' redirects timeout kwargs
                   extra_domains Hctor
                   (remote_sources_parse_perm c w sources sources' Hperm Hparse)).
  - cbn [created server_domains]. unfold allowed_domain_set.
    now rewrite (has_local_source_perm w sources sources' Hperm),
                (remote_origins_perm c w sources sources' Hperm).
Qed.

Lemma allowed_set_ignores_source_order_witness :
  exists srv' : Server,
    result (create_server Sample.collab (Sample.world [] Sample.echo)
              [Sample.source (Some "B") "https://b.org/llms.txt";
               Sample.source None "https://a.com/llms.txt"]
              false 10 (Some ∅) None) = Ret srv'
    /\ server_domains srv'
       = server_domains
           (created Sample.collab (Sample.world [] Sample.echo)
              [Sample.source None "https://a.com/llms.txt";
               Sample.source (Some "B") "https://b.org/llms.txt"]
              false 10 None).
Proof.
  apply (allowed_set_ignores_source_order Sample.collab
           (Sample.world [] Sample.echo)
           [Sample.source None "https://a.com/llms.txt";
            Sample.source (Some "B") "https://b.org/llms.txt"]);
    [reflexivity | apply perm_swap].
Defined.

Lemma fetch_docs_get_inv (c : Collab) (w : World) (srv : Server)
    (url : string) :
  trace (fetch_docs c w srv url) = [EvExists url; EvHttpGet url] ->
  is_local_locator w url = false
  /\ not_allowed c (server_domains srv) url = false.
Proof.
  unfold is_local_locator.
  destruct (Py.startswith url "file://") eqn:Hscheme.
  { rewrite fetch_docs_file, read_local_spec by exact Hscheme. discriminate. }
  destruct (os_path_exists w url) eqn:Hprobe.
  { rewrite fetch_docs_path by assumption. discriminate. }
  rewrite (fetch_docs_remote c w srv url Hscheme Hprobe).
  destruct (not_allowed c (server_domains srv) url); [discriminate|].
  now split.
Qed.

(** X12.  The allowlist is monotone: a locator that a server sends to the
    GET is also sent to the GET by every server whose allowed set is
    larger.  Adding domains never turns an admitted locator into a rejected
    one. *)
Theorem larger_allowlist_admits_more (c : Collab) (w : World)
    (srv srv' : Server) (url : string) :
  server_domains srv ⊆ server_domains srv' ->
  trace (fetch_docs c w srv url) = [EvExists url; EvHttpGet url] ->
  trace (fetch_docs c w srv' url) = [EvExists url; EvHttpGet url].
Proof.
  intros Hsub Hget.
  apply fetch_docs_get_inv in Hget as [Hlocal Hpass].
  rewrite fetch_docs_allowed_remote; [reflexivity | exact Hlocal |].
  apply not_allowed_false. apply not_allowed_false in Hpass.
  destruct Hpass as [Hstar | (d & Hd & Hpre)]; [left | right].
  - now apply Hsub.
  - exists d. split; [now apply Hsub | exact Hpre].
Qed.

Lemma larger_allowlist_admits_more_witness :
  trace (fetch_docs Sample.collab (Sample.world [] Sample.echo)
           (Sample.server [] ({["https://a.com/"]} ∪ {["https://b.org/"]}))
           "https://a.com/page")
  = [EvExists "https://a.com/page"; EvHttpGet "https://a.com/page"].
Proof.
  apply (larger_allowlist_admits_more Sample.collab
           (Sample.world [] Sample.echo)
           (Sample.server [] {["https://a.com/"]})).
  - simpl. apply union_subseteq_l.
  - reflexivity.
Defined.

(** ** [list_doc_sources]: composition and names *)

Lemma listing_app (c : Collab) (w : World) (l1 l2 : list DocSource) :
  listing c w (l1 ++ l2)%list
  = match listing c w l1 with
    | Ret blocks1 =>
        match listing c w l2 with
        | Ret blocks2 => Ret (blocks1 +:+ blocks2)
        | Raise e => Raise e
        end
    | Raise e => Raise e
    end.
Proof.
  unfold listing. induction l1 as [|entry rest IH].
  - cbn. now destruct (listing_with (display_name c w) w l2).
  - change ((entry :: rest) ++ l2)%list with (entry :: (rest ++ l2)%list).
    cbn [listing_with]. rewrite IH.
    destruct (display_name c w entry) as [shown|e]; [|reflexivity].
    destruct (listing_with (display_name c w) w rest) as [blocks1|e];
      [|reflexivity].
    destruct (listing_with (display_name c w) w l2) as [blocks2|e];
      [now rewrite append_assoc | reflexivity].
Qed.

Lemma probes_until_app (stops : DocSource -> bool) (l1 l2 : list DocSource) :
  probes_until stops (l1 ++ l2)%list
  = (probes_until stops l1
     ++ (if existsb stops l1 then [] else probes_until stops l2))%list.
Proof.
  induction l1 as [|entry rest IH]; [reflexivity|].
  change ((entry :: rest) ++ l2)%list with (entry :: (rest ++ l2)%list).
  cbn [probes_until existsb]. rewrite IH.
  destruct (stops entry); cbn [orb].
  - now rewrite !app_nil_r.
  - now rewrite app_assoc.
Qed.

Lemma listing_stops (c : Collab) (w : World) (sources : list DocSource) :
  existsb (fun entry => negb (name_resolves c w entry)) sources
  = negb (returns (listing c w sources)).
Proof.
  unfold listing, name_resolves.
  induction sources as [|entry rest IH]; [reflexivity|].
  cbn [existsb listing_with]. rewrite IH.
  destruct (display_name c w entry) as [shown|e]; [|reflexivity].
  cbn [returns negb orb].
  now destruct (listing_with (display_name c w) w rest).
Qed.

(** X13.  For a configuration made of two lists of sources, one after the
    other: if the listing of the first list returns, the listing of the
    whole is the listing of the first followed by the listing of the
    second, with the probes in the same order, and it raises what the
    second raises; if the listing of the first raises, the whole does
    exactly what the first does and the second list is not probed. *)
Theorem list_doc_sources_app (c : Collab) (w : World) (srv1 srv2 srv : Server) :
  server_sources srv = (server_sources srv1 ++ server_sources srv2)%list ->
  (forall s1 s2,
      result (list_doc_sources c w srv1) = Ret s1 ->
      result (list_doc_sources c w srv2) = Ret s2 ->
      list_doc_sources c w srv
      = ((trace (list_doc_sources c w srv1)
          ++ trace (list_doc_sources c w srv2))%list,
         Ret (s1 +:+ s2)))
  /\ (forall s1 e,
        result (list_doc_sources c w srv1) = Ret s1 ->
        result (list_doc_sources c w srv2) = Raise e ->
        list_doc_sources c w srv
        = ((trace (list_doc_sources c w srv1)
            ++ trace (list_doc_sources c w srv2))%list,
           Raise e))
  /\ (forall e,
        result (list_doc_sources c w srv1) = Raise e ->
        list_doc_sources c w srv = list_doc_sources c w srv1).
Proof.
  intros Hsources. rewrite !list_doc_sources_run, Hsources.
  rewrite listing_app, probes_until_app, listing_stops.
  unfold trace, result. cbn [fst snd].
  split; [|split].
  - intros s1 s2 -> ->. reflexivity.
  - intros s1 e -> ->. reflexivity.
  - intros e ->. cbn [returns negb]. now rewrite app_nil_r.
Qed.

Lemma list_doc_sources_app_witness :
  list_doc_sources Sample.collab
    (Sample.world [("notes.md", "# Notes")] Sample.echo)
    (Sample.server [Sample.source None "notes.md";
                    Sample.source (Some "A") "https://a.com/llms.txt"] ∅)
  = ([EvExists "notes.md"; EvExists "https://a.com/llms.txt"],
     Ret (("notes.md" +:+ Py.LF +:+ "Path: notes.md" +:+ Py.LF +:+ Py.LF)
          +:+ ("A" +:+ Py.LF +:+ "URL: https://a.com/llms.txt"
               +:+ Py.LF +:+ Py.LF)))
  /\ list_doc_sources Sample.collab (Sample.world [] Sample.echo)
       (Sample.server [Sample.source None "http://[bad/llms.txt";
                       Sample.source (Some "A") "https://a.com/llms.txt"] ∅)
     = ([EvExists "http://[bad/llms.txt"],
        Raise (Exn (OtherException "ValueError") "Invalid IPv6 URL")).
Proof.
  split.
  - destruct (list_doc_sources_app Sample.collab
                (Sample.world [("notes.md", "# Notes")] Sample.echo)
                (Sample.server [Sample.source None "notes.md"] ∅)
                (Sample.server [Sample.source (Some "A") "https://a.com/llms.txt"] ∅)
                (Sample.server [Sample.source None "notes.md";
                                Sample.source (Some "A") "https://a.com/llms.txt"] ∅)
                eq_refl) as (Hboth & _).
    now rewrite (Hboth _ _ eq_refl eq_refl).
  - destruct (list_doc_sources_app Sample.collab (Sample.world [] Sample.echo)
                (Sample.server [Sample.source None "http://[bad/llms.txt"] ∅)
                (Sample.server [Sample.source (Some "A") "https://a.com/llms.txt"] ∅)
                (Sample.server [Sample.source None "http://[bad/llms.txt";
                                Sample.source (Some "A") "https://a.com/llms.txt"] ∅)
                eq_refl) as (_ & _ & Hfirst).
    now rewrite (Hfirst _ eq_refl).
Defined.

Lemma has_slash_join (dir file : string) :
  Py.has_slash (dir +:+ "/" +:+ file) = true.
Proof.
  induction dir as [|ch dir IH].
  - reflexivity.
  - rewrite append_cons. cbn [Py.has_slash]. now rewrite IH, orb_true_r.
Qed.

(** The base name of [dir/file] is [file]. *)
Lemma basename_join (dir file : string) :
  Py.has_slash file = false ->
  Py.basename (dir +:+ "/" +:+ file) = file.
Proof.
  intros Hfile. induction dir as [|ch dir IH].
  - rewrite append_nil, append_cons, append_nil. cbn [Py.basename].
    now rewrite Hfile.
  - rewrite append_cons. cbn [Py.basename]. now rewrite has_slash_join.
Qed.

(** X14.  A local source without a name (or with the empty name) is listed
    under its file name: when the path the locator names is [dir/file],
    with no slash in [file] and no further [file://] in the path, the
    block that the loop body of [list_doc_sources] adds is [file], a line
    feed, [Path: ] and the locator, and two line feeds. *)
Theorem unnamed_local_source_is_listed_by_file_name (c : Collab) (w : World)
    (entry : DocSource) (content dir file : string) :
  name entry = None \/ name entry = Some "" ->
  is_local_locator w (llms_txt entry) = true ->
  local_path (llms_txt entry) = dir +:+ "/" +:+ file ->
  Py.has_slash file = false ->
  Py.occurs "file://" (local_path (llms_txt entry)) = false ->
  list_entry c w entry content
  = ((if Py.startswith (llms_txt entry) "file://" then []
      else [EvExists (llms_txt entry)]),
     Ret (content +:+ file +:+ Py.LF +:+ "Path: " +:+ llms_txt entry
          +:+ Py.LF +:+ Py.LF)).
Proof.
  intros Hname Hlocal Hpath Hfile Habsent.
  rewrite list_entry_spec. f_equal.
  unfold display_name, get_name, block_with, locator_label.
  rewrite Hlocal, (replace_local_path _ Habsent), Hpath,
    (basename_join dir file Hfile).
  now destruct Hname as [-> | ->].
Qed.

Lemma unnamed_local_source_is_listed_by_file_name_witness :
  list_entry Sample.collab (Sample.world [] Sample.echo)
    (Sample.source None "file:///srv/docs/llms.txt") "Sources:"
  = ([], Ret ("Sources:" +:+ "llms.txt" +:+ Py.LF
              +:+ "Path: file:///srv/docs/llms.txt" +:+ Py.LF +:+ Py.LF)).
Proof.
  apply (unnamed_local_source_is_listed_by_file_name Sample.collab
           (Sample.world [] Sample.echo)
           (Sample.source None "file:///srv/docs/llms.txt") "Sources:"
           "/srv/docs" "llms.txt");
    [now left | reflexivity | reflexivity | reflexivity | reflexivity].
Defined.

(** X15.  The two tools classify a locator in the same way in the same
    world.  For a local locator the loop body of [list_doc_sources] prints
    the [Path: ] block, and [fetch_docs] on the locator returns the result
    of reading the path it names, without an HTTP request.  For any other
    locator the loop body prints the [URL: ] block, or raises what
    [urlparse] raises when the source has no name, and [fetch_docs] opens
    no file. *)
Theorem listed_label_predicts_fetch_route (c : Collab) (w : World)
    (srv : Server) (entry : DocSource) (content : string) :
  (is_local_locator w (llms_txt entry) = true
   /\ (exists shown,
         display_name c w entry = Ret shown
         /\ result (list_entry c w entry content)
            = Ret (content +:+ shown +:+ Py.LF
                   +:+ "Path: " +:+ llms_txt entry +:+ Py.LF +:+ Py.LF))
   /\ result (fetch_docs c w srv (llms_txt entry))
      = Ret (local_result c w (local_path (llms_txt entry)))
   /\ EvOpen (local_path (llms_txt entry))
        ∈ trace (fetch_docs c w srv (llms_txt entry))
   /\ forall u, EvHttpGet u ∉ trace (fetch_docs c w srv (llms_txt entry)))
  \/ (is_local_locator w (llms_txt entry) = false
      /\ ((exists shown,
             display_name c w entry = Ret shown
             /\ result (list_entry c w entry content)
                = Ret (content +:+ shown +:+ Py.LF
                       +:+ "URL: " +:+ llms_txt entry +:+ Py.LF +:+ Py.LF))
          \/ (exists e,
                get_name entry = ""
                /\ urlparse c (llms_txt entry) = Raise e
                /\ result (list_entry c w entry content) = Raise e))
      /\ forall p, EvOpen p ∉ trace (fetch_docs c w srv (llms_txt entry))).
Proof.
  rewrite list_entry_spec. unfold result at 1 3 4. cbn [snd].
  unfold block_with, locator_label, local_path.
  unfold is_local_locator at 1 2 3 4.
  destruct (Py.startswith (llms_txt entry) "file://") eqn:Hscheme.
  - left. split; [reflexivity|]. split.
    { unfold display_name, is_local_locator. rewrite Hscheme. cbn [orb].
      destruct (get_name entry); eauto. }
    rewrite fetch_docs_file, read_local_spec by exact Hscheme.
    split; [reflexivity|]. split; [left|].
    intros u Hu. apply list_elem_of_In in Hu.
    destruct Hu as [Hu|[]]. discriminate Hu.
  - cbn [orb]. destruct (os_path_exists w (llms_txt entry)) eqn:Hprobe.
    + left. split; [reflexivity|]. split.
      { unfold display_name, is_local_locator. rewrite Hscheme, Hprobe.
        cbn [orb]. destruct (get_name entry); eauto. }
      rewrite fetch_docs_path by assumption.
      split; [reflexivity|]. split; [right; left|].
      intros u Hu. apply list_elem_of_In in Hu.
      destruct Hu as [Hu|[Hu|[]]]; discriminate Hu.
    + right. split; [reflexivity|]. split.
      { unfold display_name, is_local_locator. rewrite Hscheme, Hprobe.
        cbn [orb]. destruct (get_name entry) as [|ch configured].
        - destruct (urlparse c (llms_txt entry)) as [parsed|e]; eauto.
        - eauto. }
      rewrite (fetch_docs_remote c w srv _ Hscheme Hprobe).
      intros p Hp.
      destruct (not_allowed c (server_domains srv) (llms_txt entry)).
      * apply list_elem_of_In in Hp. destruct Hp as [Hp|[]]. discriminate Hp.
      * cbn [trace fst] in Hp. rewrite http_fetch_trace in Hp.
        apply list_elem_of_In in Hp.
        destruct Hp as [Hp|[Hp|[]]]; discriminate Hp.
Qed.
